(** * Zenshin: progress history, gap segmentation, pace and forecasts

    A shallow embedding of the core of the chart script (the variant with
    history, forecasts, speed and start-date cutoff): [processData],
    [computeForecasts] and [avgDate], together with the part of JavaScript
    and of the date library the three functions rely on.

    Conventions of the embedding.
    - A JavaScript number is an exact rational, [NaN] or an infinity. IEEE
      rounding and the sign of zero are not modelled.
    - A [Date] is a time value in milliseconds or the invalid date. The
      range limit of time values is not modelled.
    - A record of the level-progression list carries its timestamps already
      parsed: [unlocked_at] is the result of [parseISO], [passed_at] is
      [None] when the field is null or empty (falsy) and the parsed date
      otherwise. The start-date field of the form is handled the same way.
    - Reading a property of [undefined] throws; functions that can do so
      return an [outcome].
    - The chart itself is outside the embedding: [processData] returns the
      three series it hands to [makeChart]. *)

From Stdlib Require Import ZArith QArith Qabs Qcanon Lia Lqa.
From stdpp Require Import base decidable numbers option list.

(** ** JavaScript values *)

Module JS.

Inductive number := NaN | NegInf | PosInf | Fin (q : Qc).

#[global] Instance number_eq_dec : EqDecision number.
Proof. solve_decision. Defined.

Definition of_Z (z : Z) : number := Fin (Q2Qc (inject_Z z)).

Definition sign (q : Qc) : comparison := (q ?= Q2Qc 0)%Qc.

(** [a < b]: false as soon as one side is [NaN]. *)
Definition lt (a b : number) : bool :=
  match a, b with
  | Fin p, Fin q => match (p ?= q)%Qc with Lt => true | _ => false end
  | NegInf, Fin _ | NegInf, PosInf | Fin _, PosInf => true
  | _, _ => false
  end.

(** [a >= b]: false as soon as one side is [NaN]. *)
Definition ge (a b : number) : bool :=
  match a, b with
  | Fin p, Fin q => match (p ?= q)%Qc with Lt => false | _ => true end
  | PosInf, Fin _ | PosInf, NegInf | Fin _, NegInf => true
  | PosInf, PosInf | NegInf, NegInf => true
  | _, _ => false
  end.

Definition neg (a : number) : number :=
  match a with
  | NaN => NaN
  | NegInf => PosInf
  | PosInf => NegInf
  | Fin q => Fin (- q)%Qc
  end.

Definition add (a b : number) : number :=
  match a, b with
  | Fin p, Fin q => Fin (p + q)%Qc
  | NaN, _ | _, NaN => NaN
  | PosInf, NegInf | NegInf, PosInf => NaN
  | PosInf, _ | _, PosInf => PosInf
  | NegInf, _ | _, NegInf => NegInf
  end.

Definition sub (a b : number) : number := add a (neg b).

(** An infinity scaled by a finite factor. *)
Definition scale_inf (positive : bool) (q : Qc) : number :=
  match sign q with
  | Eq => NaN
  | Gt => if positive then PosInf else NegInf
  | Lt => if positive then NegInf else PosInf
  end.

Definition mul (a b : number) : number :=
  match a, b with
  | Fin p, Fin q => Fin (p * q)%Qc
  | NaN, _ | _, NaN => NaN
  | PosInf, Fin q | Fin q, PosInf => scale_inf true q
  | NegInf, Fin q | Fin q, NegInf => scale_inf false q
  | PosInf, PosInf | NegInf, NegInf => PosInf
  | PosInf, NegInf | NegInf, PosInf => NaN
  end.

(** Division; a zero divisor is the positive zero. *)
Definition div (a b : number) : number :=
  match a, b with
  | NaN, _ | _, NaN => NaN
  | Fin p, Fin q =>
      match sign q with
      | Eq => match sign p with Eq => NaN | Gt => PosInf | Lt => NegInf end
      | _ => Fin (p / q)%Qc
      end
  | Fin _, (PosInf | NegInf) => of_Z 0
  | PosInf, Fin q => match sign q with Lt => NegInf | _ => PosInf end
  | NegInf, Fin q => match sign q with Lt => PosInf | _ => NegInf end
  | _, _ => NaN
  end.

(** Rounding toward zero of a rational. *)
Definition trunc (q : Qc) : Z := Z.quot (Qnum q) (Zpos (Qden q)).

(** A possibly null number, such as an entry of [avgHours]. *)
Definition nullable := option number.

(** [!v] on a nullable number: null, [NaN] and zero are falsy. *)
Definition falsy (v : nullable) : bool :=
  match v with
  | None => true
  | Some NaN => true
  | Some (Fin q) => match sign q with Eq => true | _ => false end
  | Some _ => false
  end.

(** [ToNumber]: null converts to zero. *)
Definition to_number (v : nullable) : number :=
  match v with
  | None => of_Z 0
  | Some n => n
  end.

(** *** Dates *)

Inductive Date := Invalid | At (ms : Z).

#[global] Instance Date_eq_dec : EqDecision Date.
Proof. solve_decision. Defined.

Definition getTime (d : Date) : number :=
  match d with
  | Invalid => NaN
  | At ms => of_Z ms
  end.

(** [new Date(n)]: the time value is [n] rounded toward zero. *)
Definition new_Date (n : number) : Date :=
  match n with
  | Fin q => At (trunc q)
  | _ => Invalid
  end.

(** A Date object is truthy, valid or not. *)
Definition truthy (d : Date) : bool := true.

(** [a >= b] on two Date objects compares their time values. *)
Definition date_ge (a b : Date) : bool := ge (getTime a) (getTime b).

Definition date_lt (a b : Date) : bool := lt (getTime a) (getTime b).

(** *** Exceptions *)

Inductive error := TypeError.

Inductive outcome (A : Type) :=
  | Returns (a : A)
  | Throws (e : error).
Arguments Returns {A} a.
Arguments Throws {A} e.

#[global] Instance error_eq_dec : EqDecision error.
Proof. solve_decision. Defined.
#[global] Instance outcome_eq_dec `{EqDecision A} : EqDecision (outcome A).
Proof. solve_decision. Defined.

#[global] Instance outcome_ret : MRet outcome := @Returns.
#[global] Instance outcome_bind : MBind outcome := λ A B f m,
  match m with
  | Returns a => f a
  | Throws e => Throws e
  end.

(** Reading a property of [l[i]]: a [TypeError] when [l[i]] is undefined. *)
Definition element {A} (l : list A) (i : nat) : outcome A :=
  match l !! i with
  | Some a => Returns a
  | None => Throws TypeError
  end.

(** [Array.prototype.flatMap] with the callback's index argument. *)
Fixpoint flatMap_from {A B} (f : A → nat → outcome (list B))
    (i : nat) (l : list A) : outcome (list B) :=
  match l with
  | [] => Returns []
  | a :: l' =>
      ys ← f a i;
      rest ← flatMap_from f (S i) l';
      Returns (ys ++ rest)
  end.

Definition flatMap {A B} (f : A → nat → outcome (list B)) (l : list A) :
    outcome (list B) :=
  flatMap_from f 0 l.

(** A counting loop [for (i = start; ...; ++i)] of [n] rounds over a state. *)
Fixpoint for_loop {S} (body : S → nat → outcome S) (i n : nat) (s : S) :
    outcome S :=
  match n with
  | O => Returns s
  | Datatypes.S n' => s' ← body s i; for_loop body (Datatypes.S i) n' s'
  end.

End JS.

Import JS.

Declare Scope js_scope.
Delimit Scope js_scope with js.
Bind Scope js_scope with number.
Infix "+" := JS.add : js_scope.
Infix "-" := JS.sub : js_scope.
Infix "*" := JS.mul : js_scope.
Infix "/" := JS.div : js_scope.
Infix "<" := JS.lt : js_scope.
Infix ">=" := JS.ge : js_scope.

(** ** The date library

    [addHours] and [max] (imported as [maxDates]) do not depend on the calendar and are written out
    (after date-fns 2). The three difference functions depend on the
    calendar and on the time zone of the browser; the program is verified
    against any implementation of them, and [utc] below is the one used to
    run it on concrete timestamps. *)

Module DateFns.

Definition MILLISECONDS_IN_HOUR : Z := 3600000.
Definition MILLISECONDS_IN_DAY : Z := 86400000.

(** [toInteger]: rounds toward zero, keeps [NaN] and the infinities. *)
Definition toInteger (n : number) : number :=
  match n with
  | Fin q => of_Z (trunc q)
  | _ => n
  end.

Definition addMilliseconds (d : Date) (amount : number) : Date :=
  new_Date (getTime d + toInteger amount)%js.

Definition addHours (d : Date) (amount : number) : Date :=
  addMilliseconds d (toInteger amount * of_Z MILLISECONDS_IN_HOUR)%js.

(** One round of the loop of [max] (imported as [maxDates]): the running result is replaced when it
    is still undefined, when it is earlier than the current date, or when
    the current date is invalid. *)
Definition max_step (result : option Date) (currentDate : Date) : option Date :=
  match result with
  | None => Some currentDate
  | Some r =>
      if date_lt r currentDate then Some currentDate
      else match currentDate with
           | Invalid => Some currentDate
           | At _ => result
           end
  end.

Definition maxDates (datesArray : list Date) : Date :=
  match fold_left max_step datesArray None with
  | Some r => r
  | None => Invalid
  end.

Class Differences := {
  differenceInHours : Date → Date → number;
  differenceInDays : Date → Date → number;
  differenceInMonths : Date → Date → number
}.

(** *** The differences in UTC *)

(** Full periods of [unit] milliseconds from [b] to [a]. *)
Definition full_periods (unit : Z) (a b : Date) : number :=
  match a, b with
  | At ta, At tb => of_Z (Z.quot (ta - tb) unit)
  | _, _ => NaN
  end.

(** Year, month (1 to 12) and day of month of a day number counted from
    1970-01-01, in the proleptic Gregorian calendar. *)
Definition civil_from_days (days : Z) : Z * Z * Z :=
  let z := (days + 719468)%Z in
  let era := (z / 146097)%Z in
  let doe := (z - era * 146097)%Z in
  let yoe := ((doe - doe / 1460 + doe / 36524 - doe / 146096) / 365)%Z in
  let doy := (doe - (365 * yoe + yoe / 4 - yoe / 100))%Z in
  let mp := ((5 * doy + 2) / 153)%Z in
  let d := (doy - (153 * mp + 2) / 5 + 1)%Z in
  let m := (if (mp <? 10)%Z then mp + 3 else mp - 9)%Z in
  let yr := (yoe + era * 400 + (if (m <=? 2)%Z then 1 else 0))%Z in
  (yr, m, d).

(** Calendar month index, and the milliseconds elapsed since the start of
    that month. *)
Definition month_index (ms : Z) : Z :=
  let '(yr, m, _) := civil_from_days (ms / MILLISECONDS_IN_DAY) in
  (yr * 12 + (m - 1))%Z.

Definition into_month (ms : Z) : Z :=
  let '(_, _, d) := civil_from_days (ms / MILLISECONDS_IN_DAY) in
  ((d - 1) * MILLISECONDS_IN_DAY + ms mod MILLISECONDS_IN_DAY)%Z.

(** Whole months from [tb] up to [ta], for [tb <= ta]: the calendar months
    between them, less one when the last month is not complete. The
    end-of-month adjustments of the library are not modelled. *)
Definition whole_months (ta tb : Z) : Z :=
  let difference := (month_index ta - month_index tb)%Z in
  if (difference <? 1)%Z then 0%Z
  else if (into_month ta <? into_month tb)%Z then (difference - 1)%Z
  else difference.

Definition months_between (a b : Date) : number :=
  match a, b with
  | At ta, At tb =>
      of_Z (if (tb <=? ta)%Z then whole_months ta tb
            else - whole_months tb ta)%Z
  | _, _ => NaN
  end.

#[global] Instance utc : Differences := {|
  differenceInHours := full_periods MILLISECONDS_IN_HOUR;
  differenceInDays := full_periods MILLISECONDS_IN_DAY;
  differenceInMonths := months_between
|}.

(** Midnight UTC of a day number. *)
Definition midnight (days : Z) : Date := At (days * MILLISECONDS_IN_DAY).

End DateFns.

Import DateFns.

(** ** The data *)

(** One level progression of the learner, as delivered by the platform. *)
Record ProgressRecord := {
  level : Z;
  unlocked_at : Date;
  passed_at : option Date
}.

(** A point of the history or of a forecast line: [{x, y}]. *)
Record Point := { x : Date; y : Z }.

(** A point of the speed series: [{x, y}] with a rate for [y]. *)
Record PaceSample := { sx : Date; sy : number }.

(** An element of a charted series: a real element, or the empty object
    [{}] that makes the chart break the line. *)
Inductive entry (A : Type) :=
  | Real (a : A)
  | Gap.
Arguments Real {A} a.
Arguments Gap {A}.

Definition ForecastLine : Type := Point * Point.

#[global] Instance Point_eq_dec : EqDecision Point.
Proof. solve_decision. Defined.
#[global] Instance PaceSample_eq_dec : EqDecision PaceSample.
Proof. solve_decision. Defined.
#[global] Instance entry_eq_dec `{EqDecision A} : EqDecision (entry A).
Proof. solve_decision. Defined.

(** ** The program *)

Definition ALPHAS : list number := [Fin (Q2Qc (1 # 2)); Fin (Q2Qc (1 # 4))].
Definition MAX_LEVEL : Z := 60.
Definition GAP_MONTHS : Z := 6.
Definition SKIP_MONTHS : Z := 3.

Section Program.
Context `{Differences}.

(** *** [computeForecasts] *)

(** The body of [avgHours.forEach]: the new value of entry [i]. An index
    outside [ALPHAS] would read [undefined], which makes the sum [NaN]. *)
Definition smooth (hours : number) (i : nat) (old : nullable) : nullable :=
  if falsy old then Some hours
  else
    let alpha := default NaN (ALPHAS !! i) in
    Some (alpha * hours + (of_Z 1 - alpha) * to_number old)%js.

(** One round of the loop over [i]. *)
Definition forecast_round (history : list Point) (avgHours : list nullable)
    (i : nat) : outcome (list nullable) :=
  item ← element history i;
  before ← element history (i - 1);
  let cur := x item in
  let prev := x before in
  let hours := differenceInHours cur prev in
  let months := differenceInMonths cur prev in
  mret (if truthy cur && truthy prev && (months < of_Z SKIP_MONTHS)%js
        then imap (smooth hours) avgHours
        else avgHours).

(** The array [avgHours] when the loop ends. *)
Definition avgHours (history : list Point) : outcome (list nullable) :=
  for_loop (forecast_round history) 1 (length history - 1) [None; None].

(** The forecast line of one average. *)
Definition forecast_line (last : Point) (avg : nullable) : ForecastLine :=
  let levelsToDo := (MAX_LEVEL - y last)%Z in
  ({| x := x last; y := y last |},
   {| x := addHours (x last) (to_number avg * of_Z levelsToDo)%js;
      y := MAX_LEVEL |}).

Definition computeForecasts (history : list Point) :
    outcome (list ForecastLine) :=
  avgs ← avgHours history;
  last ← element history (length history - 1);
  mret (map (forecast_line last) avgs).

(** *** [avgDate] *)

Definition avgDate (a b : Date) : Date :=
  new_Date ((getTime a + getTime b) / of_Z 2)%js.

(** *** [processData] *)

(** The mapping of the records to points. *)
Definition unlock_points (levels : list ProgressRecord) : list Point :=
  map (λ r, {| x := unlocked_at r; y := (level r - 1)%Z |}) levels.

(** [startDate]; reading [history[0].x] throws on an empty history. *)
Definition startDate (startDateStr : option Date) (history : list Point) :
    outcome Date :=
  first ← element history 0;
  mret (match startDateStr with
        | Some cutoff => maxDates [cutoff; x first]
        | None => x first
        end).

(** The history handed to the forecaster: the unlock points from the start
    date on, then the completion point when the last level was passed. *)
Definition built_history (levels : list ProgressRecord)
    (startDateStr : option Date) : outcome (list Point) :=
  let history := unlock_points levels in
  start ← startDate startDateStr history;
  let history := List.filter (λ p, date_ge (x p) start) history in
  last ← element levels (length levels - 1);
  mret (match passed_at last with
        | Some passed => history ++ [{| x := passed; y := level last |}]
        | None => history
        end).

(** The callback of the first [flatMap]: a gap before an item whose level
    went down or that comes [GAP_MONTHS] months or more after its
    predecessor. *)
Definition gap_callback (history : list Point) (item : Point) (i : nat) :
    outcome (list (entry Point)) :=
  if decide (i = 0) then mret [Real item]
  else
    prev ← element history (i - 1);
    if (y item <? y prev)%Z then mret [Gap; Real item]
    else if (differenceInMonths (x item) (x prev) >= of_Z GAP_MONTHS)%js
    then mret [Gap; Real item]
    else mret [Real item].

Definition gapped_history (history : list Point) :
    outcome (list (entry Point)) :=
  flatMap (gap_callback history) history.

(** The callback of the second [flatMap], with the level below which no
    speed is computed as a parameter (the source writes 3). *)
Definition speed_callback (low : Z) (history : list (entry Point))
    (item : entry Point) (i : nat) : outcome (list (entry PaceSample)) :=
  if decide (i = 0) then mret []
  else
    match item with
    | Gap => mret [Gap]
    | Real cur =>
        if (y cur <? low)%Z then mret []
        else
          prev ← element history (i - 1);
          match prev with
          | Gap => mret []
          | Real prev =>
              let dx_months :=
                (differenceInDays (x cur) (x prev) / of_Z 30)%js in
              let dy_levels := (y cur - y prev)%Z in
              let avg_x := avgDate (x prev) (x cur) in
              mret [Real {| sx := avg_x; sy := (of_Z dy_levels / dx_months)%js |}]
          end
    end.

Definition speed_from (low : Z) (history : list (entry Point)) :
    outcome (list (entry PaceSample)) :=
  flatMap (speed_callback low history) history.

Definition speed := speed_from 3.

(** The three series handed to [makeChart]. *)
Record Charted := {
  chart_history : list (entry Point);
  chart_forecasts : list ForecastLine;
  chart_speed : list (entry PaceSample)
}.

Definition processData (levels : list ProgressRecord)
    (startDateStr : option Date) : outcome Charted :=
  history ← built_history levels startDateStr;
  forecasts ← computeForecasts history;
  history ← gapped_history history;
  speed ← speed history;
  mret {| chart_history := history;
          chart_forecasts := forecasts;
          chart_speed := speed |}.

End Program.

(** ** Notions used by the statements *)

(** The consecutive pairs [(prev, cur)] of a sequence, in order. *)
Fixpoint pairs {A} (l : list A) : list (A * A) :=
  match l with
  | prev :: (cur :: _) as rest => (prev, cur) :: pairs rest
  | _ => []
  end.

Definition is_gap {A} (e : entry A) : bool :=
  match e with
  | Gap => true
  | Real _ => false
  end.

(** A series with its gap markers removed. *)
Fixpoint remove_gaps {A} (series : list (entry A)) : list A :=
  match series with
  | [] => []
  | Real a :: rest => a :: remove_gaps rest
  | Gap :: rest => remove_gaps rest
  end.

Definition gap_count {A} (series : list (entry A)) : nat :=
  length (List.filter is_gap series).

(** Every gap marker stands between two real elements. *)
Definition gaps_between_reals {A} (series : list (entry A)) : Prop :=
  ∀ i, series !! i = Some Gap →
    (∃ j a, i = S j ∧ series !! j = Some (Real a)) ∧
    (∃ b, series !! S i = Some (Real b)).

Definition no_adjacent_gaps {A} (series : list (entry A)) : Prop :=
  ∀ i, ¬ (series !! i = Some Gap ∧ series !! S i = Some Gap).

Definition gap_not_first {A} (series : list (entry A)) : Prop :=
  head series ≠ Some Gap.

(** The same three conditions as a check along the series; [prev_real]
    tells whether the element before the series is a real one. *)
Fixpoint gaps_isolated {A} (prev_real : bool) (series : list (entry A)) : bool :=
  match series with
  | [] => true
  | Real _ :: rest => gaps_isolated true rest
  | Gap :: rest =>
      prev_real
      && match rest with Real _ :: _ => true | _ => false end
      && gaps_isolated false rest
  end.

(** The points at or after the start date. *)
Definition cutoff_filter (start : Date) (points : list Point) : list Point :=
  List.filter (λ p, date_ge (x p) start) points.

(** The completion point of a record that was passed. *)
Definition completion_point (r : ProgressRecord) (passed : Date) : Point :=
  {| x := passed; y := level r |}.

(** The start date of a non-empty record list. *)
Definition effective_start (startDateStr : option Date)
    (first : ProgressRecord) : Date :=
  match startDateStr with
  | Some cutoff => maxDates [cutoff; unlocked_at first]
  | None => unlocked_at first
  end.

(** The completion point, when the last level was passed. *)
Definition completion (final : ProgressRecord) : list Point :=
  match passed_at final with
  | Some passed => [completion_point final passed]
  | None => []
  end.

(** A forecast line of no duration: it ends at the timestamp it starts at. *)
Definition zero_duration_line (last : Point) : ForecastLine :=
  ({| x := x last; y := y last |}, {| x := x last; y := MAX_LEVEL |}).

(** A finite number above zero. *)
Definition above_zero (n : number) : Prop :=
  ∃ q, n = Fin q ∧ (Q2Qc 0 < q)%Qc.

(** An average that is null or above zero. *)
Definition null_or_positive (avg : nullable) : Prop :=
  avg = None ∨ ∃ v, avg = Some v ∧ above_zero v.

(** A rate within [tol] of [target]. *)
Definition near (target tol : Q) (n : number) : bool :=
  match n with
  | Fin q => Qle_bool (Qabs (this q - target)) tol
  | _ => false
  end.

Section Notions.
Context `{Differences}.

(** *** The forecaster, as the specification words it *)

(** One average after one pair that is not skipped. *)
Definition spec_average (alpha hours : number) (avg : nullable) : nullable :=
  match avg with
  | None => Some hours
  | Some old => Some (alpha * hours + (of_Z 1 - alpha) * old)%js
  end.

(** The averages after one pair: unchanged when the elapsed months reach
    the skip threshold, updated otherwise. *)
Definition spec_round (avgs : list nullable) (pair : Point * Point) :
    list nullable :=
  let '(prev, cur) := pair in
  if (differenceInMonths (x cur) (x prev) >= of_Z SKIP_MONTHS)%js then avgs
  else
    zip_with (λ alpha avg,
      spec_average alpha (differenceInHours (x cur) (x prev)) avg) ALPHAS avgs.

Definition spec_averages (history : list Point) : list nullable :=
  fold_left spec_round (pairs history) [None; None].

(** *** The forecaster, pair by pair as the loop runs *)

Definition code_round (avgs : list nullable) (pair : Point * Point) :
    list nullable :=
  let '(prev, cur) := pair in
  if (differenceInMonths (x cur) (x prev) < of_Z SKIP_MONTHS)%js
  then imap (smooth (differenceInHours (x cur) (x prev))) avgs
  else avgs.

(** Every pair is skipped: all gaps reach the skip threshold. *)
Definition all_skipped (history : list Point) : Prop :=
  Forall (λ pair : Point * Point,
    (differenceInMonths (x pair.2) (x pair.1) >= of_Z SKIP_MONTHS)%js = true)
    (pairs history).

(** The months of every pair compare with the skip threshold, and every
    pair that is not skipped observes a positive number of hours. *)
Definition positive_hours (history : list Point) : Prop :=
  Forall (λ pair : Point * Point,
    let months := differenceInMonths (x pair.2) (x pair.1) in
    (months < of_Z SKIP_MONTHS)%js = negb (months >= of_Z SKIP_MONTHS)%js
    ∧ ((months < of_Z SKIP_MONTHS)%js = true →
       above_zero (differenceInHours (x pair.2) (x pair.1))))
    (pairs history).

(** *** The gap segmenter, as the specification words it *)

Definition is_break (prev cur : Point) : bool :=
  (y cur <? y prev)%Z
  || (differenceInMonths (x cur) (x prev) >= of_Z GAP_MONTHS)%js.

Fixpoint emit_after (prev : Point) (rest : list Point) : list (entry Point) :=
  match rest with
  | [] => []
  | cur :: rest' =>
      (if is_break prev cur then [Gap; Real cur] else [Real cur])
      ++ emit_after cur rest'
  end.

Definition segmented (history : list Point) : list (entry Point) :=
  match history with
  | [] => []
  | first :: rest => Real first :: emit_after first rest
  end.

(** A history without a level regression and without a gap of
    [GAP_MONTHS] months. *)
Definition steady (history : list Point) : Prop :=
  Forall (λ pair : Point * Point,
    (y pair.1 ≤ y pair.2)%Z ∧
    (differenceInMonths (x pair.2) (x pair.1) < of_Z GAP_MONTHS)%js = true)
    (pairs history).

(** *** The pace estimator, pair by pair *)

(** The sample of two consecutive real points. *)
Definition pace_sample (prev cur : Point) : PaceSample :=
  {| sx := avgDate (x prev) (x cur);
     sy := (of_Z (y cur - y prev)
            / (differenceInDays (x cur) (x prev) / of_Z 30))%js |}.

Definition pace_of_pair (low : Z) (prev cur : entry Point) :
    list (entry PaceSample) :=
  match cur with
  | Gap => [Gap]
  | Real c =>
      if (y c <? low)%Z then []
      else match prev with
           | Gap => []
           | Real p => [Real (pace_sample p c)]
           end
  end.

Fixpoint pace_after (low : Z) (prev : entry Point)
    (rest : list (entry Point)) : list (entry PaceSample) :=
  match rest with
  | [] => []
  | cur :: rest' => pace_of_pair low prev cur ++ pace_after low cur rest'
  end.

Definition pace_series (low : Z) (history : list (entry Point)) :
    list (entry PaceSample) :=
  match history with
  | [] => []
  | first :: rest => pace_after low first rest
  end.

(** [s] is the sample of two consecutive real points of [history], the
    later of which is at level [low] or above. *)
Definition sample_of_pair (low : Z) (history : list (entry Point))
    (s : PaceSample) : Prop :=
  ∃ i prev cur,
    history !! i = Some (Real prev) ∧ history !! S i = Some (Real cur) ∧
    s = pace_sample prev cur ∧ (low ≤ y cur)%Z.

(** The same, with both points at level [low] or above. *)
Definition sample_of_high_pair (low : Z) (history : list (entry Point))
    (s : PaceSample) : Prop :=
  ∃ i prev cur,
    history !! i = Some (Real prev) ∧ history !! S i = Some (Real cur) ∧
    s = pace_sample prev cur ∧ (low ≤ y prev)%Z ∧ (low ≤ y cur)%Z.

End Notions.

(** ** The rest of the script

    The axis range computed by [makeChart], the clean-up of the stored API
    key in [main], and the two earlier variants of the pipeline kept in
    the repository. Fetching, storage and drawing are not modelled. *)

(** *** The axis of the chart ([makeChart]) *)

Definition MAX_YEARS_FORECAST : Z := 3.

(** One round of the loop of [min] (imported as [minDates]): the running
    result is replaced when it is still undefined, when it is later than
    the current date, or when the current date is invalid. *)
Definition min_step (result : option Date) (currentDate : Date) : option Date :=
  match result with
  | None => Some currentDate
  | Some r =>
      if date_lt currentDate r then Some currentDate
      else match currentDate with
           | Invalid => Some currentDate
           | At _ => result
           end
  end.

Definition minDates (datesArray : list Date) : Date :=
  match fold_left min_step datesArray None with
  | Some r => r
  | None => Invalid
  end.

(** [toDate] on the [x] of an element of a series: the empty object has no
    [x], and [toDate(undefined)] is the invalid date. *)
Definition toDate (d : option Date) : Date := default Invalid d.

(** [e.x] on an element of a charted series. *)
Definition entry_x (e : entry Point) : option Date :=
  match e with
  | Real p => Some (x p)
  | Gap => None
  end.

(** The functions of the date library that round to the calendar. *)
Class Calendar := {
  startOfMonth : Date → Date;
  endOfMonth : Date → Date;
  addYears : Date → Z → Date
}.

(** The [min] and [max] ticks of the time axis. *)
Record Range := { range_min : Date; range_max : Date }.

Section Axis.
Context `{Calendar}.

(** The date handed to [endOfMonth]: the later forecast, capped. *)
Definition axis_end (last : option Date) (forecasts : list ForecastLine) :
    Date :=
  let limit := maxDates (map (λ fc : ForecastLine, x fc.2) forecasts) in
  minDates [limit; addYears (toDate last) MAX_YEARS_FORECAST].

(** Lines 200 to 216 of [makeChart]; reading [history[0].x] throws on an
    empty series. *)
Definition chart_range (history : list (entry Point))
    (forecasts : list ForecastLine) : outcome Range :=
  first ← element history 0;
  let begin := entry_x first in
  final ← element history (length history - 1);
  let last := entry_x final in
  mret {| range_min := startOfMonth (toDate begin);
          range_max := endOfMonth (axis_end last forecasts) |}.

End Axis.

(** *** The stored API key ([main]) *)

(** A string as its UTF-16 code units. *)
Definition js_string : Type := list N.




(** *** The variant without start date (the third file without a name)

    Its [computeForecasts] and its two [flatMap] calls are those of the
    current script, word for word; only the builder differs. *)

Module NoCutoff.
Section Program.
Context `{Differences}.

(** Reading [levels[levels.length - 1]] throws on an empty list. *)
Definition built_history (levels : list ProgressRecord) :
    outcome (list Point) :=
  let history := unlock_points levels in
  last ← element levels (length levels - 1);
  mret (match passed_at last with
        | Some passed => history ++ [{| x := passed; y := level last |}]
        | None => history
        end).

Definition processData (levels : list ProgressRecord) : outcome Charted :=
  history ← built_history levels;
  forecasts ← computeForecasts history;
  history ← gapped_history history;
  speed ← speed history;
  mret {| chart_history := history;
          chart_forecasts := forecasts;
          chart_speed := speed |}.

End Program.
End NoCutoff.

(** *** The earliest variant (the second file without a name) *)

Module Earliest.
Section Program.
Context `{Differences}.

(** The body of [avgHours.forEach]. *)
Definition smooth (hours : number) (i : nat) (old : nullable) : nullable :=
  let alpha := default NaN (ALPHAS !! i) in
  if negb (falsy old)
  then Some (alpha * hours + (of_Z 1 - alpha) * to_number old)%js
  else Some hours.

Definition forecast_round (history : list Point) (avgHours : list nullable)
    (i : nat) : outcome (list nullable) :=
  item ← element history i;
  before ← element history (i - 1);
  let hours := differenceInHours (x item) (x before) in
  mret (imap (smooth hours) avgHours).

Definition avgHours (history : list Point) : outcome (list nullable) :=
  for_loop (forecast_round history) 1 (length history - 1) [None; None].

Definition computeForecasts (history : list Point) :
    outcome (list ForecastLine) :=
  avgs ← avgHours history;
  last ← element history (length history - 1);
  mret (map (forecast_line last) avgs).

(** The callback of the [flatMap] in [processData]: a gap before an item
    whose level went down. *)
Definition gap_callback (history : list Point) (item : Point) (i : nat) :
    outcome (list (entry Point)) :=
  if bool_decide (0 < i) then
    prev ← element history (i - 1);
    if (y item <? y prev)%Z then mret [Gap; Real item] else mret [Real item]
  else mret [Real item].


End Program.
End Earliest.

(** *** Notions for the statements about them *)

(** An average that is null or finite. *)
Definition null_or_finite (avg : nullable) : Prop :=
  avg = None ∨ ∃ q, avg = Some (Fin q).

(** An average that is null or between [lo] and [hi]. *)
Definition null_or_within (lo hi : Qc) (avg : nullable) : Prop :=
  avg = None ∨ ∃ q, avg = Some (Fin q) ∧ (lo <= q)%Qc ∧ (q <= hi)%Qc.

Section MoreNotions.
Context `{Differences}.

(** The pairs that the loop of [computeForecasts] does not skip. *)
Definition counted (pair : Point * Point) : Prop :=
  (differenceInMonths (x pair.2) (x pair.1) < of_Z SKIP_MONTHS)%js = true.

(** Every counted pair observes a finite number of hours. *)
Definition finite_hours (history : list Point) : Prop :=
  Forall (λ pair : Point * Point,
    counted pair → ∃ h, differenceInHours (x pair.2) (x pair.1) = Fin h)
    (pairs history).

(** Every counted pair observes between [lo] and [hi] hours. *)
Definition hours_within (lo hi : Qc) (history : list Point) : Prop :=
  Forall (λ pair : Point * Point,
    counted pair →
    ∃ h, differenceInHours (x pair.2) (x pair.1) = Fin h
         ∧ (lo <= h)%Qc ∧ (h <= hi)%Qc)
    (pairs history).

(** The number of consecutive pairs at which the segmenter breaks. *)
Definition break_count (history : list Point) : nat :=
  length (List.filter (λ pair : Point * Point, is_break pair.1 pair.2)
            (pairs history)).

(** One round of the loop of the earliest forecaster, on one pair. *)
Definition earliest_round (avgs : list nullable) (pair : Point * Point) :
    list nullable :=
  imap (Earliest.smooth (differenceInHours (x pair.2) (x pair.1))) avgs.


End MoreNotions.

(** All the elements of a series that are real are below level index
    [low]. *)
Definition all_below (low : Z) (series : list (entry Point)) : Prop :=
  Forall (λ e, match e with Real p => (y p < low)%Z | Gap => True end) series.

(** ** Sample inputs *)

Module Samples.

(** 2021-01-01, as a day number. *)
Definition jan1 : Z := 18628.

Definition minutes (n : Z) : Z := (n * 60000)%Z.

(** A point [m] minutes after midnight of day [d]. *)
Definition point_at (d m level_index : Z) : Point :=
  {| x := At (d * MILLISECONDS_IN_DAY + minutes m); y := level_index |}.

(** Level indices 0, 1, 2 reached at midnight on the first of January,
    February and March, for a year whose first day is day [d] and whose
    February has [feb] days. *)
Definition first_of_months (d feb : Z) : list Point :=
  [{| x := midnight d; y := 0 |};
   {| x := midnight (d + 31); y := 1 |};
   {| x := midnight (d + 31 + feb); y := 2 |}].

(** The same in 2021. *)
Definition first_of_month : list Point := first_of_months jan1 28.

(** From level index 2 to level index 3 in ten days. *)
Definition low_then_high : list Point :=
  [point_at jan1 0 2; point_at (jan1 + 10) 0 3].

Definition record_at (d lvl : Z) (passed : option Date) : ProgressRecord :=
  {| level := lvl; unlocked_at := midnight d; passed_at := passed |}.

(** A learner at level 11 who restarted twice: 11, then 6, then 5. *)
Definition two_restarts : list ProgressRecord :=
  [record_at jan1 11 None; record_at (jan1 + 31) 6 None;
   record_at (jan1 + 59) 5 None].

(** Three unlocks in one morning: the second half an hour after the first,
    the third ten hours after the second. *)
Definition within_the_hour : list Point :=
  [point_at jan1 0 0; point_at jan1 30 1; point_at jan1 630 2].

(** Two unlocks 130 days apart (January 1st and May 11th). *)
Definition long_pause : list Point :=
  [point_at jan1 0 10; point_at (jan1 + 130) 0 11].

(** A learner who has just started level 1. *)
Definition newcomer : list ProgressRecord := [record_at jan1 1 None].

(** Levels 1, 2, 3 unlocked on the first of January, February and March. *)
Definition three_levels : list ProgressRecord :=
  [record_at jan1 1 None; record_at (jan1 + 31) 2 None;
   record_at (jan1 + 59) 3 None].

(** Levels 59 and 60, the last one passed on March 1st. *)
Definition finished : list ProgressRecord :=
  [record_at jan1 59 None;
   record_at (jan1 + 31) 60 (Some (midnight (jan1 + 59)))].

End Samples.

Module MoreSamples.
Import Samples.

(** Level index 0 reached on 2021-01-01 and level index 1 thirty days
    later. *)
Definition thirty_days : list Point :=
  [point_at jan1 0 0; point_at (jan1 + 30) 0 1].

(** The last two levels and the completion of the course. *)
Definition completed : list Point :=
  [point_at jan1 0 58; point_at (jan1 + 31) 0 59; point_at (jan1 + 59) 0 60].

(** Level indices 3 and 4 reached ten hours apart. *)
Definition same_day : list Point :=
  [point_at jan1 0 3; point_at jan1 600 4].

(** A first record without unlock time. *)
Definition unlock_missing : list ProgressRecord :=
  [{| level := 1; unlocked_at := Invalid; passed_at := None |};
   record_at (jan1 + 31) 2 None].

(** The characters of [" ab-1_ é"]. *)
Definition spaced_key : js_string := [32; 97; 98; 45; 49; 95; 32; 233]%N.

End MoreSamples.

(** ** Numbers and dates *)

Lemma compare_of_Z (a b : Z) :
  (Q2Qc (inject_Z a) ?= Q2Qc (inject_Z b))%Qc = (a ?= b)%Z.
Proof.
  unfold Qccompare; simpl. rewrite !Qred_correct.
  unfold Qcompare; simpl. by rewrite !Z.mul_1_r.
Qed.

Lemma lt_of_Z (a b : Z) : (of_Z a < of_Z b)%js = (a <? b)%Z.
Proof. unfold JS.lt, of_Z. rewrite compare_of_Z. unfold Z.ltb. by destruct (a ?= b)%Z. Qed.

Lemma ge_of_Z (a b : Z) : (of_Z a >= of_Z b)%js = (b <=? a)%Z.
Proof.
  unfold JS.ge, of_Z. rewrite compare_of_Z.
  unfold Z.leb. rewrite (Z.compare_antisym a b).
  by destruct (a ?= b)%Z.
Qed.

Lemma ge_not_lt (a b : number) : (a >= b)%js = true → (a < b)%js = false.
Proof. destruct a, b; simpl; try done. by destruct (_ ?= _)%Qc. Qed.

Lemma lt_not_ge (a b : number) : (a < b)%js = true → (a >= b)%js = false.
Proof. destruct a, b; simpl; try done. by destruct (_ ?= _)%Qc. Qed.

Lemma date_ge_At (a b : Z) : date_ge (At a) (At b) = (b <=? a)%Z.
Proof. apply ge_of_Z. Qed.

Lemma date_lt_At (a b : Z) : date_lt (At a) (At b) = (a <? b)%Z.
Proof. apply lt_of_Z. Qed.

(** ** Arrays: indices and traversals *)

Lemma element_middle {A} (pre : list A) (a : A) (rest : list A) :
  element (pre ++ a :: rest) (length pre) = Returns a.
Proof. unfold element. by rewrite list_lookup_middle. Qed.

Lemma element_after {A} (pre : list A) (a b : A) (rest : list A) :
  element (pre ++ a :: b :: rest) (S (length pre)) = Returns b.
Proof.
  unfold element. rewrite (cons_middle a pre), app_assoc.
  rewrite list_lookup_middle; [done|]. rewrite length_app; simpl; lia.
Qed.

Lemma element_last {A} (pre : list A) (a : A) :
  element (pre ++ [a]) (length (pre ++ [a]) - 1) = Returns a.
Proof.
  rewrite length_app; simpl.
  replace (length pre + 1 - 1) with (length pre) by lia.
  apply element_middle.
Qed.

Section Traversals.
Context `{Differences}.

Lemma forecast_round_pair (pre : list Point) (a b : Point) (rest : list Point)
    (avgs : list nullable) :
  forecast_round (pre ++ a :: b :: rest) avgs (S (length pre))
  = Returns (code_round avgs (a, b)).
Proof.
  unfold forecast_round. rewrite element_after. simpl.
  replace (length pre - 0) with (length pre) by lia.
  rewrite element_middle. simpl. done.
Qed.

Lemma for_loop_pairs (rest : list Point) :
  ∀ (pre : list Point) (a : Point) (avgs : list nullable),
    for_loop (forecast_round (pre ++ a :: rest)) (S (length pre))
      (length rest) avgs
    = Returns (fold_left code_round (pairs (a :: rest)) avgs).
Proof.
  induction rest as [|b rest IH]; intros pre a avgs; [done|].
  cbn [length for_loop]. rewrite forecast_round_pair. cbn [mbind outcome_bind].
  specialize (IH (pre ++ [a]) b (code_round avgs (a, b))).
  rewrite <- app_assoc, length_app, Nat.add_1_r in IH. exact IH.
Qed.

(** The loop of [computeForecasts] never throws, and folds [code_round]
    over the consecutive pairs. *)
Lemma avgHours_pairs (history : list Point) :
  avgHours history = Returns (fold_left code_round (pairs history) [None; None]).
Proof.
  unfold avgHours. destruct history as [|a rest]; [done|].
  cbn [length]. replace (S (length rest) - 1) with (length rest) by lia.
  apply (for_loop_pairs rest [] a).
Qed.

Lemma gap_callback_pair (pre : list Point) (a b : Point) (rest : list Point) :
  gap_callback (pre ++ a :: b :: rest) b (S (length pre))
  = Returns (if is_break a b then [Gap; Real b] else [Real b]).
Proof.
  unfold gap_callback, is_break. rewrite decide_False by lia. simpl.
  replace (length pre - 0) with (length pre) by lia.
  rewrite element_middle. simpl.
  destruct (y b <? y a)%Z; [done|]. simpl.
  by destruct (_ >= _)%js.
Qed.

Lemma flatMap_gaps (rest : list Point) :
  ∀ (pre : list Point) (a : Point),
    flatMap_from (gap_callback (pre ++ a :: rest)) (S (length pre)) rest
    = Returns (emit_after a rest).
Proof.
  induction rest as [|b rest IH]; intros pre a; [done|].
  cbn [flatMap_from]. rewrite gap_callback_pair. cbn [mbind outcome_bind].
  specialize (IH (pre ++ [a]) b).
  rewrite <- app_assoc, length_app, Nat.add_1_r in IH.
  cbn [app] in IH. rewrite IH. done.
Qed.

(** The first [flatMap] never throws and yields the segmented history. *)
Lemma gapped_history_segmented (history : list Point) :
  gapped_history history = Returns (segmented history).
Proof.
  unfold gapped_history, flatMap. destruct history as [|a rest]; [done|].
  cbn [flatMap_from].
  change (gap_callback (a :: rest) a 0) with (Returns [Real a]).
  cbn [mbind outcome_bind].
  pose proof (flatMap_gaps rest [] a) as Hrest. cbn [app length] in Hrest.
  by rewrite Hrest.
Qed.

Lemma speed_callback_pair (low : Z) (pre : list (entry Point))
    (a b : entry Point) (rest : list (entry Point)) :
  speed_callback low (pre ++ a :: b :: rest) b (S (length pre))
  = Returns (pace_of_pair low a b).
Proof.
  unfold speed_callback, pace_of_pair. rewrite decide_False by lia.
  destruct b as [cur|]; [|done].
  destruct (y cur <? low)%Z; [done|]. simpl.
  replace (length pre - 0) with (length pre) by lia.
  rewrite element_middle. simpl. by destruct a.
Qed.

Lemma flatMap_speed (low : Z) (rest : list (entry Point)) :
  ∀ (pre : list (entry Point)) (a : entry Point),
    flatMap_from (speed_callback low (pre ++ a :: rest)) (S (length pre)) rest
    = Returns (pace_after low a rest).
Proof.
  induction rest as [|b rest IH]; intros pre a; [done|].
  cbn [flatMap_from]. rewrite speed_callback_pair. cbn [mbind outcome_bind].
  specialize (IH (pre ++ [a]) b).
  rewrite <- app_assoc, length_app, Nat.add_1_r in IH.
  cbn [app] in IH. rewrite IH. done.
Qed.

(** The second [flatMap] never throws and yields the pace series. *)
Lemma speed_from_series (low : Z) (history : list (entry Point)) :
  speed_from low history = Returns (pace_series low history).
Proof.
  unfold speed_from, flatMap. destruct history as [|a rest]; [done|].
  cbn [flatMap_from].
  change (speed_callback low (a :: rest) a 0)
    with (Returns (@nil (entry PaceSample))).
  cbn [mbind outcome_bind].
  pose proof (flatMap_speed low rest [] a) as Hrest. cbn [app length] in Hrest.
  by rewrite Hrest.
Qed.

End Traversals.

(** ** Series and their gap markers *)

Lemma gaps_isolated_lookup {A} (series : list (entry A)) :
  ∀ (prev_real : bool) (i : nat),
    gaps_isolated prev_real series = true →
    series !! i = Some Gap →
    (i = 0 → prev_real = true) ∧
    (∀ j, i = S j → ∃ a, series !! j = Some (Real a)) ∧
    (∃ b, series !! S i = Some (Real b)).
Proof.
  induction series as [|e rest IH]; intros prev_real i Hok Hi; [done|].
  destruct e as [a|]; simpl in Hok.
  - destruct i as [|i]; [done|]. simpl in Hi.
    destruct (IH true i Hok Hi) as (H0 & Hprev & Hnext).
    split; [done|]. split; [|done].
    intros j [= <-]. destruct i as [|i]; [by exists a|].
    by apply (Hprev i).
  - apply andb_prop in Hok as [Hok Hrest]. apply andb_prop in Hok as [Hp Hn].
    destruct i as [|i].
    + split; [done|]. split; [done|].
      destruct rest as [|[b|] rest]; try done. by exists b.
    + simpl in Hi. destruct (IH false i Hrest Hi) as (H0 & Hprev & Hnext).
      split; [done|]. split; [|done].
      intros j [= <-]. destruct i as [|i]; [by specialize (H0 eq_refl)|].
      by apply (Hprev i).
Qed.

Lemma gaps_isolated_between {A} (series : list (entry A)) :
  gaps_isolated false series = true → gaps_between_reals series.
Proof.
  intros Hok i Hi.
  destruct (gaps_isolated_lookup series false i Hok Hi) as (H0 & Hprev & Hnext).
  split; [|done]. destruct i as [|j]; [by specialize (H0 eq_refl)|].
  destruct (Hprev j eq_refl) as [a Ha]. by exists j, a.
Qed.

Lemma between_no_adjacent {A} (series : list (entry A)) :
  gaps_between_reals series → no_adjacent_gaps series.
Proof.
  intros Hbetween i [Hi Hnext].
  destruct (Hbetween i Hi) as [_ [b Hb]]. congruence.
Qed.

Lemma between_not_first {A} (series : list (entry A)) :
  gaps_between_reals series → gap_not_first series.
Proof.
  intros Hbetween Hhead. destruct series as [|e rest]; [done|].
  injection Hhead as ->.
  by destruct (Hbetween 0 eq_refl) as [(j & a & Hj & _) _].
Qed.

Section Segmenter.
Context `{Differences}.

Lemma remove_gaps_emit_after (rest : list Point) :
  ∀ prev, remove_gaps (emit_after prev rest) = rest.
Proof.
  induction rest as [|cur rest IH]; intros prev; [done|].
  simpl. destruct (is_break prev cur); simpl; by rewrite IH.
Qed.

Lemma emit_after_isolated (rest : list Point) :
  ∀ prev, gaps_isolated true (emit_after prev rest) = true.
Proof.
  induction rest as [|cur rest IH]; intros prev; [done|].
  simpl. destruct (is_break prev cur); simpl; by rewrite IH.
Qed.

Lemma emit_after_steady (rest : list Point) :
  ∀ prev, steady (prev :: rest) → emit_after prev rest = map Real rest.
Proof.
  induction rest as [|cur rest IH]; intros prev Hsteady; [done|].
  apply Forall_cons in Hsteady as [[Hy Hm] Hrest]. simpl in Hy, Hm.
  simpl. unfold is_break.
  rewrite (proj2 (Z.ltb_ge _ _) Hy), (lt_not_ge _ _ Hm). simpl.
  by rewrite (IH cur Hrest).
Qed.

Lemma gap_count_reals {A} (l : list A) : gap_count (map Real l) = 0.
Proof. unfold gap_count. by induction l. Qed.

(** C3. For every point sequence, the gap segmenter returns a series that,
    with its gap markers removed, is the input sequence, element for
    element and in the same order. *)
Theorem C3_gaps_removed_gives_input (history : list Point) :
  ∃ series,
    gapped_history history = Returns series ∧ remove_gaps series = history.
Proof.
  exists (segmented history). split; [apply gapped_history_segmented|].
  destruct history as [|first rest]; [done|].
  simpl. by rewrite remove_gaps_emit_after.
Qed.

(** C4. The gap segmenter emits the first element as it is, and for each
    consecutive pair [(prev, cur)] it emits a gap marker right before [cur]
    exactly when [cur.y < prev.y] or the whole months from [prev.x] to
    [cur.x] reach [GAP_MONTHS] (6), and [cur] alone otherwise. So a history
    without regression and with all gaps below the threshold gets no gap
    marker. *)
Theorem C4_gap_exactly_at_breaks :
  gapped_history [] = Returns []
  ∧ (∀ first rest,
       gapped_history (first :: rest)
       = Returns (Real first :: emit_after first rest))
  ∧ (∀ prev cur rest,
       emit_after prev (cur :: rest)
       = (if (y cur <? y prev)%Z
             || (differenceInMonths (x cur) (x prev) >= of_Z 6)%js
          then [Gap; Real cur] else [Real cur])
         ++ emit_after cur rest)
  ∧ (∀ history, steady history →
       ∃ series, gapped_history history = Returns series
                 ∧ series = map Real history ∧ gap_count series = 0).
Proof.
  split; [done|].
  split; [intros first rest; apply (gapped_history_segmented (first :: rest))|].
  split; [done|]. intros history Hsteady.
  exists (map Real history). rewrite gapped_history_segmented.
  split; [|split; [done|apply gap_count_reals]].
  destruct history as [|first rest]; [done|].
  simpl. by rewrite (emit_after_steady rest first Hsteady).
Qed.

(** C7, as amended. In the gap-segmented history series every gap marker
    stands between two real points: no two gap markers are adjacent and
    the first element is not a gap marker. (The pace series is not
    included: see the counterexample.) *)
Theorem C7_history_gaps_between_points (history : list Point) :
  ∃ series,
    gapped_history history = Returns series
    ∧ gaps_between_reals series
    ∧ no_adjacent_gaps series
    ∧ gap_not_first series.
Proof.
  exists (segmented history). split; [apply gapped_history_segmented|].
  assert (gaps_between_reals (segmented history)) as Hbetween.
  { apply gaps_isolated_between. destruct history as [|first rest]; [done|].
    simpl. apply emit_after_isolated. }
  split; [done|]. split; [by apply between_no_adjacent|].
  by apply between_not_first.
Qed.

End Segmenter.

(** ** The pace estimator *)

Lemma trunc_fraction (q : Qc) (n : Z) (d : positive) :
  (this q == n # d)%Q → trunc q = Z.quot n (Zpos d).
Proof.
  unfold trunc, Qeq. simpl. intros Heq.
  rewrite <- (Z.quot_mul_cancel_r (Qnum q) (Zpos (Qden q)) (Zpos d)) by lia.
  rewrite Heq, (Z.mul_comm (Zpos (Qden q)) (Zpos d)).
  apply Z.quot_mul_cancel_r; lia.
Qed.

(** [avgDate] of two valid dates is the midpoint, rounded toward zero. *)
Lemma avgDate_At `{Differences} (a b : Z) :
  avgDate (At a) (At b) = At (Z.quot (a + b) 2).
Proof.
  unfold avgDate. simpl. f_equal. apply trunc_fraction.
  unfold Qcdiv, Qcmult, Qcplus, Qcinv. simpl.
  rewrite !Qred_correct. unfold Qeq. simpl. lia.
Qed.

Lemma days_between_midnights (d n : Z) :
  full_periods MILLISECONDS_IN_DAY (midnight (d + n)) (midnight d) = of_Z n.
Proof.
  unfold full_periods, midnight. f_equal. f_equal.
  replace ((d + n) * MILLISECONDS_IN_DAY - d * MILLISECONDS_IN_DAY)%Z
    with (n * MILLISECONDS_IN_DAY)%Z by lia.
  by apply Z.quot_mul.
Qed.

(** One level in [n] days, in levels per month of 30 days. *)
Lemma rate_31 : (of_Z 1 / (of_Z 31 / of_Z 30))%js = Fin (Q2Qc (30 # 31)).
Proof. apply (bool_decide_unpack _). by vm_compute. Qed.

Lemma rate_28 : (of_Z 1 / (of_Z 28 / of_Z 30))%js = Fin (Q2Qc (15 # 14)).
Proof. apply (bool_decide_unpack _). by vm_compute. Qed.

Lemma rate_29 : (of_Z 1 / (of_Z 29 / of_Z 30))%js = Fin (Q2Qc (30 # 29)).
Proof. apply (bool_decide_unpack _). by vm_compute. Qed.

Section Pace.
Context `{Differences}.

Lemma pace_after_sample (low : Z) (rest : list (entry Point)) :
  ∀ (first : entry Point) (s : PaceSample),
    Real s ∈ pace_after low first rest →
    sample_of_pair low (first :: rest) s.
Proof.
  induction rest as [|e rest IH]; intros first s Hin.
  { by apply elem_of_nil in Hin. }
  simpl in Hin. apply elem_of_app in Hin as [Hin|Hin].
  - unfold pace_of_pair in Hin.
    destruct e as [cur|]; [|by apply list_elem_of_singleton in Hin].
    destruct (Z.ltb_spec (y cur) low) as [|Hlow]; [by apply elem_of_nil in Hin|].
    destruct first as [prev|]; [|by apply elem_of_nil in Hin].
    apply list_elem_of_singleton in Hin as [= ->].
    by exists 0, prev, cur.
  - destruct (IH e s Hin) as (i & prev & cur & Hprev & Hcur & Hs & Hlow).
    by exists (S i), prev, cur.
Qed.

(** C5, as amended. Every numeric sample the pace estimator emits is the
    sample of two consecutive elements [(prev, cur)] of its input, neither
    of which is a gap marker, and [cur] is not below level index 3. (The
    level of [prev] is not tested: see the counterexample.) *)
Theorem C5_samples_from_real_pairs (history : list (entry Point)) :
  ∃ out,
    speed history = Returns out
    ∧ ∀ s, Real s ∈ out → sample_of_pair 3 history s.
Proof.
  exists (pace_series 3 history). split; [apply speed_from_series|].
  intros s Hin. destruct history as [|first rest].
  { by apply elem_of_nil in Hin. }
  by apply pace_after_sample.
Qed.

End Pace.

Import Samples.

(** C5, counterexample. From level index 2 to level index 3 in ten days:
    the estimator emits the sample of that pair, whose earlier point is
    below level index 3, and no pair of two points at level index 3 or
    above yields it. *)
Lemma C5_low_level_prev_is_sampled :
  ∃ series out s,
    gapped_history low_then_high = Returns series
    ∧ speed series = Returns out
    ∧ Real s ∈ out
    ∧ ¬ sample_of_high_pair 3 series s.
Proof.
  exists (map Real low_then_high), (pace_series 3 (map Real low_then_high)).
  eexists. split; [by vm_compute|].
  split; [apply speed_from_series|].
  split; [apply list_elem_of_singleton; reflexivity|].
  intros (i & prev & cur & Hprev & Hcur & _ & Hlow & _).
  destruct i as [|i]; [|by destruct i].
  injection Hprev as <-. simpl in Hlow. lia.
Qed.

(** C7, counterexample. A learner who restarted twice (levels 11, 6, 5):
    the pace series handed to the chart is two gap markers, so it starts
    with a gap marker and has two of them side by side. *)
Lemma C7_pace_series_starts_with_gaps :
  ∃ charted,
    processData two_restarts None = Returns charted
    ∧ chart_speed charted = [Gap; Gap]
    ∧ ¬ gap_not_first (chart_speed charted)
    ∧ ¬ no_adjacent_gaps (chart_speed charted).
Proof.
  destruct (processData two_restarts None) as [charted|e] eqn:Hrun;
    vm_compute in Hrun; [|done].
  exists charted. split; [done|]. injection Hrun as <-. simpl.
  split; [done|]. split.
  - intros Hfirst. by apply Hfirst.
  - intros Hadjacent. by apply (Hadjacent 0).
Qed.

(** The pace series of three first-of-month points, for any cutoff that
    lets them through. *)
Lemma pace_first_of_months (d feb : Z) :
  speed_from 0 (map Real (first_of_months d feb))
  = Returns
      [Real {| sx := At (Z.quot (d * MILLISECONDS_IN_DAY
                                 + (d + 31) * MILLISECONDS_IN_DAY) 2);
               sy := (of_Z 1 / (of_Z 31 / of_Z 30))%js |};
       Real {| sx := At (Z.quot ((d + 31) * MILLISECONDS_IN_DAY
                                 + (d + 31 + feb) * MILLISECONDS_IN_DAY) 2);
               sy := (of_Z 1 / (of_Z feb / of_Z 30))%js |}].
Proof.
  rewrite speed_from_series.
  cbn [first_of_months map pace_series pace_after pace_of_pair y x Z.ltb
       Z.compare app].
  unfold pace_sample. cbn [x y differenceInDays utc].
  rewrite !days_between_midnights.
  unfold midnight. rewrite !avgDate_At.
  by replace (2 - 1)%Z with 1%Z by lia.
Qed.

Lemma first_of_month_unbroken :
  gapped_history first_of_month = Returns (map Real first_of_month).
Proof. by vm_compute. Qed.

(** C8, as amended. For level indices 0, 1, 2 reached at midnight (UTC) on
    the first of January, February and March, and with the low-level
    cutoff taken as 0, the pace estimator emits exactly two samples, at the
    midpoints of the two intervals; their rates are 30/31 (about 0.968)
    and 30/28 = 15/14 (about 1.071) levels per 30-day month, the second
    being 30/29 (about 1.034) in a leap year. In 2021 the segmenter puts no
    gap in this history. With the cutoff 3 of the source no sample is
    emitted. *)
Theorem C8_first_of_month_rates :
  (∀ d,
     speed_from 0 (map Real (first_of_months d 28))
     = Returns
         [Real {| sx := At (Z.quot (d * MILLISECONDS_IN_DAY
                                    + (d + 31) * MILLISECONDS_IN_DAY) 2);
                  sy := Fin (Q2Qc (30 # 31)) |};
          Real {| sx := At (Z.quot ((d + 31) * MILLISECONDS_IN_DAY
                                    + (d + 31 + 28) * MILLISECONDS_IN_DAY) 2);
                  sy := Fin (Q2Qc (15 # 14)) |}])
  ∧ (∀ d,
     speed_from 0 (map Real (first_of_months d 29))
     = Returns
         [Real {| sx := At (Z.quot (d * MILLISECONDS_IN_DAY
                                    + (d + 31) * MILLISECONDS_IN_DAY) 2);
                  sy := Fin (Q2Qc (30 # 31)) |};
          Real {| sx := At (Z.quot ((d + 31) * MILLISECONDS_IN_DAY
                                    + (d + 31 + 29) * MILLISECONDS_IN_DAY) 2);
                  sy := Fin (Q2Qc (30 # 29)) |}])
  ∧ gapped_history first_of_month = Returns (map Real first_of_month)
  ∧ (∀ d feb, speed (map Real (first_of_months d feb)) = Returns []).
Proof.
  split; [|split; [|split]].
  - intros d. by rewrite pace_first_of_months, rate_31, rate_28.
  - intros d. by rewrite pace_first_of_months, rate_31, rate_29.
  - apply first_of_month_unbroken.
  - intros d feb. unfold speed. by rewrite speed_from_series.
Qed.

(** C8, counterexample. In 2021 the two rates are 30/31 and 15/14; neither
    is within 0.04 of 1.03. *)
Lemma C8_rates_not_near_1_03 :
  ∃ series s1 s2,
    gapped_history first_of_month = Returns series
    ∧ speed_from 0 series = Returns [Real s1; Real s2]
    ∧ sy s1 = Fin (Q2Qc (30 # 31))
    ∧ sy s2 = Fin (Q2Qc (15 # 14))
    ∧ near (103 # 100) (4 # 100) (sy s1) = false
    ∧ near (103 # 100) (4 # 100) (sy s2) = false.
Proof.
  eexists _, _, _. split; [apply first_of_month_unbroken|].
  split; [apply (pace_first_of_months jan1 28)|]. simpl.
  split; [apply rate_31|]. split; [apply rate_28|]. by vm_compute.
Qed.

(** ** The forecaster *)

Lemma trunc_of_Z (z : Z) : trunc (Q2Qc (inject_Z z)) = z.
Proof.
  rewrite (trunc_fraction _ z 1).
  - apply Z.quot_1_r.
  - simpl. apply Qred_correct.
Qed.

Lemma mul_zero_l (n : Z) : (of_Z 0 * of_Z n)%js = of_Z 0.
Proof.
  unfold JS.mul, of_Z. f_equal.
  change (Q2Qc (inject_Z 0)) with (Q2Qc 0). apply Qcmult_0_l.
Qed.

Lemma toInteger_of_Z (z : Z) : toInteger (of_Z z) = of_Z z.
Proof. unfold toInteger, of_Z. by rewrite trunc_of_Z. Qed.

Lemma new_Date_plus_zero (d : Date) : new_Date (getTime d + of_Z 0)%js = d.
Proof.
  destruct d as [|ms]; [done|]. unfold getTime, JS.add, of_Z, new_Date.
  change (Q2Qc (inject_Z 0)) with (Q2Qc 0).
  by rewrite Qcplus_0_r, trunc_of_Z.
Qed.

(** Adding the hours of a null average: the date itself. *)
Lemma addHours_null (d : Date) (levelsToDo : Z) :
  addHours d (to_number None * of_Z levelsToDo)%js = d.
Proof.
  unfold addHours, addMilliseconds. change (to_number None) with (of_Z 0).
  rewrite mul_zero_l. rewrite ?toInteger_of_Z, ?mul_zero_l.
  apply new_Date_plus_zero.
Qed.

Lemma forecast_line_null (last : Point) :
  forecast_line last None = zero_duration_line last.
Proof. unfold forecast_line, zero_duration_line. by rewrite addHours_null. Qed.

Lemma smoothed_positive (alpha hours old : Qc) :
  (Q2Qc 0 < alpha)%Qc → (alpha < Q2Qc 1)%Qc →
  (Q2Qc 0 < hours)%Qc → (Q2Qc 0 < old)%Qc →
  (Q2Qc 0 < alpha * hours + (Q2Qc 1 + - alpha) * old)%Qc.
Proof.
  unfold Qclt. simpl. intros Halpha Hbelow Hhours Hold.
  rewrite !Qred_correct.
  change (Qred 0) with 0%Q in *. change (Qred 1) with 1%Q in *.
  assert (0 < this alpha * this hours)%Q by (by apply Qmult_lt_0_compat).
  assert (0 < (1 + - this alpha) * this old)%Q.
  { apply Qmult_lt_0_compat; [lra|done]. }
  lra.
Qed.

Lemma above_zero_truthy (v : number) : above_zero v → falsy (Some v) = false.
Proof.
  intros (q & -> & Hq). simpl. unfold sign.
  apply Qcgt_alt in Hq. by rewrite Hq.
Qed.

Lemma null_or_positive_truthy (avg : nullable) :
  null_or_positive avg → avg = None ∨ falsy avg = false.
Proof.
  intros [->|(v & -> & Hv)]; [by left|]. right. by apply above_zero_truthy.
Qed.

Lemma spec_average_positive (alpha : Qc) (hours : number) (avg : nullable) :
  (Q2Qc 0 < alpha)%Qc → (alpha < Q2Qc 1)%Qc →
  above_zero hours → null_or_positive avg →
  null_or_positive (spec_average (Fin alpha) hours avg).
Proof.
  intros Halpha Hbelow (h & -> & Hh) [->|(v & -> & old & -> & Hold)];
    right; eexists; (split; [reflexivity|]).
  - by exists h.
  - eexists. split; [reflexivity|]. by apply smoothed_positive.
Qed.

Section Forecaster.
Context `{Differences}.

Lemma code_round_skip (avgs : list nullable) (prev cur : Point) :
  (differenceInMonths (x cur) (x prev) >= of_Z SKIP_MONTHS)%js = true →
  code_round avgs (prev, cur) = avgs.
Proof. intros Hskip. unfold code_round. by rewrite (ge_not_lt _ _ Hskip). Qed.

Lemma code_rounds_all_skipped (history : list Point) (avgs : list nullable) :
  all_skipped history → fold_left code_round (pairs history) avgs = avgs.
Proof.
  unfold all_skipped. induction (pairs history) as [|[prev cur] rest IH];
    intros Hall; [done|].
  apply Forall_cons in Hall as [Hskip Hrest]. simpl in Hskip.
  cbn [fold_left]. rewrite (code_round_skip _ _ _ Hskip). by apply IH.
Qed.

(** A round of the loop does what the specification says whenever the
    months compare with the threshold and no average is zero or [NaN]. *)
Lemma code_round_agrees (a1 a2 : nullable) (prev cur : Point) :
  (a1 = None ∨ falsy a1 = false) →
  (a2 = None ∨ falsy a2 = false) →
  (differenceInMonths (x cur) (x prev) < of_Z SKIP_MONTHS)%js
  = negb (differenceInMonths (x cur) (x prev) >= of_Z SKIP_MONTHS)%js →
  code_round [a1; a2] (prev, cur) = spec_round [a1; a2] (prev, cur).
Proof.
  intros H1 H2 Hcmp. unfold code_round, spec_round. rewrite Hcmp.
  destruct (_ >= _)%js; [done|]. simpl. unfold smooth.
  destruct H1 as [->|H1], H2 as [->|H2]; simpl; rewrite ?H1, ?H2;
    try destruct a1; try destruct a2; done.
Qed.

Lemma spec_round_positive (a1 a2 : nullable) (prev cur : Point) :
  null_or_positive a1 → null_or_positive a2 →
  ((differenceInMonths (x cur) (x prev) >= of_Z SKIP_MONTHS)%js = false →
   above_zero (differenceInHours (x cur) (x prev))) →
  ∃ b1 b2,
    spec_round [a1; a2] (prev, cur) = [b1; b2]
    ∧ null_or_positive b1 ∧ null_or_positive b2.
Proof.
  intros H1 H2 Hhours. unfold spec_round.
  destruct (_ >= _)%js; [by exists a1, a2|].
  specialize (Hhours eq_refl). simpl. eexists _, _. split; [reflexivity|].
  split; by apply spec_average_positive.
Qed.

Lemma rounds_agree (steps : list (Point * Point)) :
  ∀ a1 a2,
    null_or_positive a1 → null_or_positive a2 →
    Forall (λ pair : Point * Point,
      let months := differenceInMonths (x pair.2) (x pair.1) in
      (months < of_Z SKIP_MONTHS)%js = negb (months >= of_Z SKIP_MONTHS)%js
      ∧ ((months < of_Z SKIP_MONTHS)%js = true →
         above_zero (differenceInHours (x pair.2) (x pair.1)))) steps →
    fold_left code_round steps [a1; a2] = fold_left spec_round steps [a1; a2].
Proof.
  induction steps as [|[prev cur] steps IH]; intros a1 a2 H1 H2 Hall; [done|].
  apply Forall_cons in Hall as [[Hcmp Hhours] Hrest]. simpl in Hcmp, Hhours.
  cbn [fold_left].
  rewrite (code_round_agrees a1 a2 prev cur)
    by (done || by apply null_or_positive_truthy).
  destruct (spec_round_positive a1 a2 prev cur H1 H2) as (b1 & b2 & -> & Hb1 & Hb2).
  { intros Hnot. apply Hhours. by rewrite Hcmp, Hnot. }
  by apply IH.
Qed.

(** On a history whose pairs observe positive hours, the loop ends with
    the averages of the specification. *)
Lemma avgHours_as_specified (history : list Point) :
  positive_hours history →
  avgHours history = Returns (spec_averages history).
Proof.
  intros Hpositive. rewrite avgHours_pairs. f_equal.
  apply rounds_agree; [by left|by left|done].
Qed.

Lemma computeForecasts_last (history : list Point) (final : Point) :
  last history = Some final →
  computeForecasts history
  = Returns (map (forecast_line final)
               (fold_left code_round (pairs history) [None; None])).
Proof.
  intros Hlast. apply last_Some in Hlast as [front ->].
  unfold computeForecasts. rewrite avgHours_pairs. cbn [mbind outcome_bind].
  by rewrite element_last.
Qed.

(** C2, as amended. When every consecutive pair is skipped, both averages
    stay null, and each forecast line has no duration: its projected
    completion point carries the last point's own timestamp, at level 60. *)
Theorem C2_all_skipped_zero_duration (history : list Point) (final : Point) :
  all_skipped history →
  last history = Some final →
  avgHours history = Returns [None; None]
  ∧ computeForecasts history
    = Returns [zero_duration_line final; zero_duration_line final].
Proof.
  intros Hskipped Hlast. split.
  - rewrite avgHours_pairs. by rewrite code_rounds_all_skipped.
  - rewrite (computeForecasts_last _ _ Hlast).
    rewrite code_rounds_all_skipped by done. simpl.
    by rewrite forecast_line_null.
Qed.

End Forecaster.

(** The only pair of [long_pause] is skipped. *)
Lemma long_pause_skipped : all_skipped long_pause.
Proof. unfold all_skipped. simpl. constructor; [by vm_compute|constructor]. Qed.

(** C2, on two unlocks 130 days apart. *)
Lemma C2_long_pause_forecast :
  computeForecasts long_pause
  = Returns [zero_duration_line (point_at (jan1 + 130) 0 11);
             zero_duration_line (point_at (jan1 + 130) 0 11)].
Proof.
  apply (C2_all_skipped_zero_duration long_pause (point_at (jan1 + 130) 0 11)).
  - constructor; [by vm_compute|constructor].
  - reflexivity.
Defined.

(** C2, counterexample. Two unlocks 130 days apart: the only pair is
    skipped, and both forecast lines are returned all the same, each ending
    at the last unlock's own (valid) timestamp. *)
Lemma C2_forecast_ends_at_last_timestamp :
  all_skipped long_pause
  ∧ ∃ line,
      computeForecasts long_pause = Returns [line; line]
      ∧ x line.2 = x line.1
      ∧ x line.2 = At 1620691200000.
Proof.
  split; [apply long_pause_skipped|].
  eexists. split; [by vm_compute|]. by split.
Qed.

(** C1. The loop does what the specification says on every history whose
    pairs observe a positive number of hours, but not when an average is
    zero. Three unlocks in one morning, half an hour and then ten hours
    apart: after the first pair both averages are 0 hours; the second pair
    observes 10 hours, and the loop sets both averages to 10, where
    smoothing gives 0.5 * 10 + 0.5 * 0 = 5 and 0.25 * 10 + 0.75 * 0 = 2.5. *)
Theorem C1_zero_average_is_reset :
  (∀ (D : Differences) (history : list Point),
     positive_hours history →
     avgHours history = Returns (spec_averages history))
  ∧ avgHours within_the_hour = Returns [Some (of_Z 10); Some (of_Z 10)]
  ∧ spec_averages within_the_hour
    = [Some (of_Z 5); Some (Fin (Q2Qc (5 # 2)))].
Proof.
  split; [intros D history; apply avgHours_as_specified|].
  split; apply (bool_decide_unpack _); by vm_compute.
Qed.

(** ** The history builder *)

Lemma maxDates_pair (a b : Z) : maxDates [At a; At b] = At (Z.max a b).
Proof.
  unfold maxDates. simpl. rewrite date_lt_At.
  destruct (Z.ltb_spec a b); simpl; f_equal; lia.
Qed.

Lemma cutoff_filter_elem (start : Date) (points : list Point) (p : Point) :
  p ∈ cutoff_filter start points ↔ p ∈ points ∧ date_ge (x p) start = true.
Proof. unfold cutoff_filter. rewrite !list_elem_of_In. apply filter_In. Qed.

Lemma cutoff_filter_all (start : Date) (points : list Point) :
  Forall (λ p, date_ge (x p) start = true) points →
  cutoff_filter start points = points.
Proof.
  unfold cutoff_filter. induction 1 as [|p rest Hp _ IH]; [done|].
  simpl. by rewrite Hp, IH.
Qed.

Section Builder.
Context `{Differences}.

Lemma element_final (levels : list ProgressRecord) (final : ProgressRecord) :
  last levels = Some final →
  element levels (length levels - 1) = Returns final.
Proof. intros Hlast. apply last_Some in Hlast as [front ->]. apply element_last. Qed.

(** Lines 128 to 143 on a non-empty record list. *)
Lemma built_history_nonempty (first : ProgressRecord)
    (others : list ProgressRecord) (final : ProgressRecord)
    (startDateStr : option Date) :
  last (first :: others) = Some final →
  built_history (first :: others) startDateStr
  = Returns
      (cutoff_filter (effective_start startDateStr first)
         (unlock_points (first :: others))
       ++ completion final).
Proof.
  intros Hlast. unfold built_history, startDate.
  cbn [unlock_points map element lookup list_lookup mbind outcome_bind mret
       outcome_ret x].
  rewrite (element_final _ _ Hlast). cbn [mbind outcome_bind].
  unfold completion, effective_start.
  destruct (passed_at final); destruct startDateStr; simpl;
    by rewrite ?app_nil_r.
Qed.

Lemma built_history_empty (startDateStr : option Date) :
  built_history [] startDateStr = Throws TypeError.
Proof. done. Qed.

Lemma computeForecasts_single (p : Point) :
  computeForecasts [p] = Returns [zero_duration_line p; zero_duration_line p].
Proof.
  rewrite (computeForecasts_last [p] p eq_refl). simpl.
  by rewrite forecast_line_null.
Qed.

(** C6. For a non-empty record list and a cutoff, the start date is the
    later of the cutoff and the first unlock, and the builder keeps exactly
    the unlock points at or after it: a cutoff later than the first unlock
    drops every point before the cutoff, and a cutoff not later than the
    first unlock leaves a history that starts at its first unlock as it is.
    (The completion point, if any, comes after the kept points.) *)
Theorem C6_cutoff_keeps_points_from_start (first : ProgressRecord)
    (others : list ProgressRecord) (final : ProgressRecord) (tc t0 : Z) :
  unlocked_at first = At t0 →
  last (first :: others) = Some final →
  let points := unlock_points (first :: others) in
  let start := At (Z.max tc t0) in
  let kept := cutoff_filter start points in
  startDate (Some (At tc)) points = Returns start
  ∧ built_history (first :: others) (Some (At tc))
    = Returns (kept ++ completion final)
  ∧ (∀ p, p ∈ kept ↔ p ∈ points ∧ date_ge (x p) start = true)
  ∧ ((t0 < tc)%Z →
       start = At tc ∧
       ∀ p, p ∈ points → date_lt (x p) (At tc) = true → p ∉ kept)
  ∧ ((tc ≤ t0)%Z →
       start = At t0 ∧
       (Forall (λ p, date_ge (x p) (At t0) = true) points → kept = points)).
Proof.
  intros Hfirst Hlast points start kept.
  assert (effective_start (Some (At tc)) first = start) as Hstart.
  { unfold effective_start. by rewrite Hfirst, maxDates_pair. }
  split; [|split; [|split; [|split]]].
  - unfold startDate, points. simpl. by rewrite Hfirst, maxDates_pair.
  - rewrite (built_history_nonempty _ _ _ _ Hlast). by rewrite Hstart.
  - intros p. apply cutoff_filter_elem.
  - intros Hlater. assert (start = At tc) as Heq.
    { unfold start. f_equal. lia. }
    split; [done|]. intros p _ Hbefore Hkept.
    apply cutoff_filter_elem in Hkept as [_ Hge].
    rewrite Heq in Hge. unfold date_ge in Hge. unfold date_lt in Hbefore.
    apply lt_not_ge in Hbefore. congruence.
  - intros Hearlier. assert (start = At t0) as Heq.
    { unfold start. f_equal. lia. }
    split; [done|]. intros Hordered. unfold kept. rewrite Heq.
    by apply cutoff_filter_all.
Qed.

(** C10. When the last record carries a completion timestamp, the completion
    point (at the level of that record) comes after the points kept by the
    cutoff, whatever the cutoff: it is the last point of the built history
    even when it lies before the start date, and the only one when the
    cutoff drops every unlock point. *)
Theorem C10_completion_point_survives_cutoff (first : ProgressRecord)
    (others : list ProgressRecord) (final : ProgressRecord) (passed : Date)
    (startDateStr : option Date) :
  last (first :: others) = Some final →
  passed_at final = Some passed →
  let kept :=
    cutoff_filter (effective_start startDateStr first)
      (unlock_points (first :: others)) in
  built_history (first :: others) startDateStr
  = Returns (kept ++ [completion_point final passed])
  ∧ (∃ history,
       built_history (first :: others) startDateStr = Returns history
       ∧ last history = Some (completion_point final passed))
  ∧ (kept = [] →
       built_history (first :: others) startDateStr
       = Returns [completion_point final passed]).
Proof.
  intros Hlast Hpassed kept.
  assert (built_history (first :: others) startDateStr
          = Returns (kept ++ [completion_point final passed])) as Hbuilt.
  { rewrite (built_history_nonempty _ _ _ _ Hlast).
    unfold completion. by rewrite Hpassed. }
  split; [done|]. split.
  - eexists. split; [exact Hbuilt|]. apply last_snoc.
  - intros Hnone. by rewrite Hbuilt, Hnone.
Qed.

(** C9, as amended. An empty record list makes the builder throw a
    [TypeError], and so does an empty history in the forecaster; in both
    cases nothing is charted. A history of a single point is not rejected:
    the forecaster returns two forecast lines of no duration, and they are
    charted with the point and an empty pace series. *)
Theorem C9_empty_throws_single_is_charted (levels : list ProgressRecord)
    (startDateStr : option Date) :
  built_history [] startDateStr = Throws TypeError
  ∧ computeForecasts [] = Throws TypeError
  ∧ match built_history levels startDateStr with
    | Throws e => processData levels startDateStr = Throws e
    | Returns [] => processData levels startDateStr = Throws TypeError
    | Returns [p] =>
        computeForecasts [p]
        = Returns [zero_duration_line p; zero_duration_line p]
        ∧ processData levels startDateStr
          = Returns {| chart_history := [Real p];
                       chart_forecasts :=
                         [zero_duration_line p; zero_duration_line p];
                       chart_speed := [] |}
    | Returns _ => True
    end.
Proof.
  split; [done|]. split; [done|].
  unfold processData.
  destruct (built_history levels startDateStr) as [[|p [|q rest]]|e];
    try done.
  cbn [mbind outcome_bind]. rewrite computeForecasts_single.
  split; [done|]. done.
Qed.

End Builder.

(** C4, on the first-of-month history of 2021: no gap marker. *)
Lemma C4_first_of_month_unbroken :
  ∃ series,
    gapped_history first_of_month = Returns series ∧ gap_count series = 0.
Proof.
  destruct (@C4_gap_exactly_at_breaks utc) as (_ & _ & _ & Hsteady).
  destruct (Hsteady first_of_month) as (series & Hrun & _ & Hcount).
  - repeat constructor; simpl; lia.
  - by exists series.
Defined.

(** C6, on three levels unlocked on the first of January, February and
    March 2021, with a cutoff on February 10th: the points of February 1st
    and before are dropped. *)
Lemma C6_cutoff_in_february :
  built_history three_levels (Some (midnight (jan1 + 40)))
  = Returns [{| x := midnight (jan1 + 59); y := 2 |}].
Proof.
  destruct (C6_cutoff_keeps_points_from_start
              (record_at jan1 1 None)
              [record_at (jan1 + 31) 2 None; record_at (jan1 + 59) 3 None]
              (record_at (jan1 + 59) 3 None)
              ((jan1 + 40) * MILLISECONDS_IN_DAY)
              (jan1 * MILLISECONDS_IN_DAY) eq_refl eq_refl)
    as (_ & Hbuilt & _).
  exact Hbuilt.
Defined.

(** C10, on a finished course: with a start date of April 11th, later than
    both unlocks and than the completion of March 1st, the built history is
    the completion point alone. *)
Lemma C10_finished_after_cutoff :
  built_history finished (Some (midnight (jan1 + 100)))
  = Returns [{| x := midnight (jan1 + 59); y := 60 |}].
Proof.
  destruct (C10_completion_point_survives_cutoff
              (record_at jan1 59 None)
              [record_at (jan1 + 31) 60 (Some (midnight (jan1 + 59)))]
              (record_at (jan1 + 31) 60 (Some (midnight (jan1 + 59))))
              (midnight (jan1 + 59))
              (Some (midnight (jan1 + 100))) eq_refl eq_refl)
    as (_ & _ & Honly).
  apply Honly. by vm_compute.
Defined.

(** C9, counterexample. A learner who has just started level 1: the history
    has a single point, nothing is thrown, and two forecast lines that end
    at the unlock's own timestamp are charted. *)
Lemma C9_single_point_is_charted :
  built_history newcomer None = Returns [point_at jan1 0 0]
  ∧ processData newcomer None
    = Returns {| chart_history := [Real (point_at jan1 0 0)];
                 chart_forecasts :=
                   [zero_duration_line (point_at jan1 0 0);
                    zero_duration_line (point_at jan1 0 0)];
                 chart_speed := [] |}.
Proof. split; by vm_compute. Qed.

(** ** Further properties of the forecaster *)

Import MoreSamples.

Lemma of_Z_mul (a b : Z) : (of_Z a * of_Z b)%js = of_Z (a * b).
Proof.
  unfold JS.mul, of_Z. f_equal. apply Qc_is_canon. simpl.
  rewrite !Qred_correct. unfold Qeq. simpl. lia.
Qed.




Lemma mul_zero_r (q : Qc) : (Fin q * of_Z 0)%js = of_Z 0.
Proof.
  unfold JS.mul, of_Z. f_equal.
  change (Q2Qc (inject_Z 0)) with (Q2Qc 0). apply Qcmult_0_r.
Qed.

Lemma addHours_nothing (d : Date) : addHours d (of_Z 0) = d.
Proof.
  unfold addHours, addMilliseconds.
  rewrite toInteger_of_Z, of_Z_mul, toInteger_of_Z.
  apply new_Date_plus_zero.
Qed.

(** Names the averages the loop ends with, wherever the goal has them. *)
Ltac name_averages avgs :=
  match goal with
  | |- context [fold_left code_round ?steps ?init] =>
      set (avgs := fold_left code_round steps init)
  end.

Section ForecasterMore.
Context `{Differences}.

Lemma code_round_two (a1 a2 : nullable) (pair : Point * Point) :
  ∃ b1 b2, code_round [a1; a2] pair = [b1; b2].
Proof.
  destruct pair as [prev cur]. unfold code_round.
  destruct (_ < _)%js; simpl; eauto.
Qed.

Lemma code_rounds_two (steps : list (Point * Point)) :
  ∀ a1 a2, ∃ b1 b2, fold_left code_round steps [a1; a2] = [b1; b2].
Proof.
  induction steps as [|pair steps IH]; intros a1 a2; [by exists a1, a2|].
  cbn [fold_left]. destruct (code_round_two a1 a2 pair) as (b1 & b2 & ->).
  apply IH.
Qed.

(** The forecaster throws on an empty history, and on any other history
    returns exactly two lines, each from the last point to level 60. *)
Theorem forecasts_two_lines_from_last (history : list Point) :
  match last history with
  | None => computeForecasts history = Throws TypeError
  | Some final =>
      ∃ end1 end2,
        computeForecasts history
        = Returns [({| x := x final; y := y final |},
                    {| x := end1; y := MAX_LEVEL |});
                   ({| x := x final; y := y final |},
                    {| x := end2; y := MAX_LEVEL |})]
  end.
Proof.
  destruct (last history) as [final|] eqn:Hlast.
  - rewrite (computeForecasts_last _ _ Hlast). name_averages avgs.
    destruct (code_rounds_two (pairs history) None None) as (b1 & b2 & Hfold).
    assert (avgs = [b1; b2]) as -> by exact Hfold.
    simpl. by eexists _, _.
  - apply last_None in Hlast as ->. done.
Qed.


Lemma smooth_finite (hours : Qc) (i : nat) (old : nullable) :
  i < 2 → null_or_finite old → null_or_finite (smooth (Fin hours) i old).
Proof.
  intros Hi Hold. unfold smooth. destruct (falsy old); [right; by eexists|].
  destruct Hold as [->|[q ->]]; destruct i as [|[|i]]; try lia;
    right; simpl; by eexists.
Qed.

Lemma code_rounds_finite (steps : list (Point * Point)) :
  ∀ a1 a2,
    null_or_finite a1 → null_or_finite a2 →
    Forall (λ pair : Point * Point,
      counted pair → ∃ h, differenceInHours (x pair.2) (x pair.1) = Fin h)
      steps →
    ∃ b1 b2,
      fold_left code_round steps [a1; a2] = [b1; b2]
      ∧ null_or_finite b1 ∧ null_or_finite b2.
Proof.
  induction steps as [|[prev cur] steps IH]; intros a1 a2 H1 H2 Hall.
  { by exists a1, a2. }
  apply Forall_cons in Hall as [Hpair Hrest]. unfold counted in Hpair.
  simpl in Hpair. cbn [fold_left]. unfold code_round.
  destruct (_ < _)%js; [|by apply IH].
  destruct (Hpair eq_refl) as [h ->]. simpl.
  apply IH; [by apply smooth_finite; [lia|]..|done].
Qed.

(** With the last point at level 60 (a finished course) both forecast
    lines have no duration, whatever finite averages the history gives. *)
Theorem finished_course_has_flat_forecasts (history : list Point)
    (final : Point) :
  finite_hours history →
  last history = Some final →
  y final = MAX_LEVEL →
  computeForecasts history
  = Returns [zero_duration_line final; zero_duration_line final].
Proof.
  intros Hfinite Hlast Hy.
  rewrite (computeForecasts_last _ _ Hlast). name_averages avgs.
  destruct (code_rounds_finite (pairs history) None None)
    as (b1 & b2 & Hfold & Hb1 & Hb2); [by left|by left|done|].
  assert (avgs = [b1; b2]) as -> by exact Hfold.
  assert (∀ avg, null_or_finite avg →
            forecast_line final avg = zero_duration_line final) as Hflat.
  { intros avg Havg. unfold forecast_line, zero_duration_line.
    rewrite Hy, Z.sub_diag. f_equal. f_equal.
    destruct Havg as [->|[q ->]]; simpl to_number.
    - by rewrite mul_zero_l, addHours_nothing.
    - by rewrite mul_zero_r, addHours_nothing. }
  simpl. by rewrite !Hflat.
Qed.

End ForecasterMore.

(** A weighted mean of two numbers of an interval stays in the interval. *)
Lemma weighted_mean_within (alpha lo hi a b : Qc) :
  (Q2Qc 0 < alpha)%Qc → (alpha < Q2Qc 1)%Qc →
  (lo <= a)%Qc → (a <= hi)%Qc → (lo <= b)%Qc → (b <= hi)%Qc →
  (lo <= alpha * a + (Q2Qc 1 + - alpha) * b)%Qc
  ∧ (alpha * a + (Q2Qc 1 + - alpha) * b <= hi)%Qc.
Proof.
  unfold Qclt, Qcle. simpl. intros Hpos Hbelow Hlo_a Ha_hi Hlo_b Hb_hi.
  rewrite !Qred_correct.
  change (Qred 0) with 0%Q in *. change (Qred 1) with 1%Q in *.
  assert (0 <= this alpha * (this a - this lo))%Q
    by (apply Qmult_le_0_compat; lra).
  assert (0 <= (1 + - this alpha) * (this b - this lo))%Q
    by (apply Qmult_le_0_compat; lra).
  assert (0 <= this alpha * (this hi - this a))%Q
    by (apply Qmult_le_0_compat; lra).
  assert (0 <= (1 + - this alpha) * (this hi - this b))%Q
    by (apply Qmult_le_0_compat; lra).
  split; lra.
Qed.

Lemma smooth_within (lo hi hours : Qc) (i : nat) (old : nullable) :
  i < 2 →
  (lo <= hours)%Qc → (hours <= hi)%Qc →
  null_or_within lo hi old →
  null_or_within lo hi (smooth (Fin hours) i old).
Proof.
  intros Hi Hlo Hhi Hold. unfold smooth.
  assert (null_or_within lo hi (Some (Fin hours))) as Hreset.
  { right. exists hours. by repeat split. }
  destruct Hold as [->|(q & -> & Hq_lo & Hq_hi)]; [done|].
  destruct (falsy (Some (Fin q))); [done|].
  right. destruct i as [|[|i]]; try lia; simpl;
    (eexists; split; [reflexivity|]);
    by apply weighted_mean_within.
Qed.

Section ForecasterBounds.
Context `{Differences}.

Lemma code_rounds_within (lo hi : Qc) (steps : list (Point * Point)) :
  ∀ a1 a2,
    null_or_within lo hi a1 → null_or_within lo hi a2 →
    Forall (λ pair : Point * Point,
      counted pair →
      ∃ h, differenceInHours (x pair.2) (x pair.1) = Fin h
           ∧ (lo <= h)%Qc ∧ (h <= hi)%Qc) steps →
    ∃ b1 b2,
      fold_left code_round steps [a1; a2] = [b1; b2]
      ∧ null_or_within lo hi b1 ∧ null_or_within lo hi b2.
Proof.
  induction steps as [|[prev cur] steps IH]; intros a1 a2 H1 H2 Hall.
  { by exists a1, a2. }
  apply Forall_cons in Hall as [Hpair Hrest]. unfold counted in Hpair.
  simpl in Hpair. cbn [fold_left]. unfold code_round.
  destruct (_ < _)%js; [|by apply IH].
  destruct (Hpair eq_refl) as (h & -> & Hlo & Hhi). simpl.
  apply IH; [by apply smooth_within; [lia|..]..|done].
Qed.

(** Each average the loop ends with is null or lies between the smallest
    and the largest number of hours observed on a counted pair. *)
Theorem averages_stay_within_observed (lo hi : Qc) (history : list Point) :
  hours_within lo hi history →
  ∃ fast slow,
    avgHours history = Returns [fast; slow]
    ∧ null_or_within lo hi fast ∧ null_or_within lo hi slow.
Proof.
  intros Hwithin. rewrite avgHours_pairs. name_averages avgs.
  destruct (code_rounds_within lo hi (pairs history) None None)
    as (b1 & b2 & Hfold & Hb1 & Hb2); [by left|by left|done|].
  assert (avgs = [b1; b2]) as -> by exact Hfold.
  by exists b1, b2.
Qed.

End ForecasterBounds.


(** A finished course: the forecasts of [completed] have no duration. *)
Lemma completed_forecast :
  computeForecasts completed
  = Returns [zero_duration_line (point_at (jan1 + 59) 0 60);
             zero_duration_line (point_at (jan1 + 59) 0 60)].
Proof.
  apply (finished_course_has_flat_forecasts (H := utc) completed
           (point_at (jan1 + 59) 0 60)); [|reflexivity|reflexivity].
  repeat constructor; intros _; by eexists.
Defined.

(** Half an hour and then ten hours: both averages end between 0 and 10. *)
Lemma within_the_hour_averages :
  ∃ fast slow,
    avgHours within_the_hour = Returns [fast; slow]
    ∧ null_or_within (Q2Qc 0) (Q2Qc 10) fast
    ∧ null_or_within (Q2Qc 0) (Q2Qc 10) slow.
Proof.
  apply (averages_stay_within_observed (H := utc)).
  repeat constructor; intros _; (eexists; split; [reflexivity|]);
    split; by vm_compute.
Defined.

(** ** Further properties of the segmenter and of the pace estimator *)

Lemma gap_count_app {A} (s1 s2 : list (entry A)) :
  gap_count (s1 ++ s2) = gap_count s1 + gap_count s2.
Proof. unfold gap_count. by rewrite List.filter_app, length_app. Qed.

(** The midpoint computed by [avgDate] lies between its two dates, at most
    half a millisecond from their mean; an invalid date gives an invalid
    midpoint. *)
Theorem midpoint_between (a b : Z) :
  (∃ m, avgDate (At a) (At b) = At m
        ∧ (Z.min a b ≤ m ≤ Z.max a b)%Z
        ∧ (a + b - 1 ≤ 2 * m ≤ a + b + 1)%Z)
  ∧ (∀ d, avgDate Invalid d = Invalid ∧ avgDate d Invalid = Invalid).
Proof.
  split.
  - exists (Z.quot (a + b) 2). split; [apply avgDate_At|].
    pose proof (Z.quot_rem' (a + b) 2) as Hsplit.
    destruct (Z.le_gt_cases 0 (a + b)) as [Hsign|Hsign].
    + pose proof (Z.rem_bound_pos (a + b) 2 Hsign ltac:(lia)). lia.
    + pose proof (Z.rem_nonpos (a + b) 2 ltac:(lia) ltac:(lia)).
      pose proof (Z.rem_abs (a + b) 2 ltac:(lia)).
      pose proof (Z.rem_bound_pos (Z.abs (a + b)) (Z.abs 2) ltac:(lia)
                    ltac:(lia)).
      lia.
  - intros d. split; [done|]. by destruct d.
Qed.

Section SegmenterMore.
Context `{Differences}.

Lemma break_count_cons (prev cur : Point) (rest : list Point) :
  break_count (prev :: cur :: rest)
  = (if is_break prev cur then 1 else 0) + break_count (cur :: rest).
Proof.
  unfold break_count. cbn [pairs List.filter fst snd].
  by destruct (is_break prev cur).
Qed.

Lemma emit_after_counts (rest : list Point) :
  ∀ prev,
    gap_count (emit_after prev rest) = break_count (prev :: rest)
    ∧ length (emit_after prev rest)
      = length rest + break_count (prev :: rest).
Proof.
  induction rest as [|cur rest IH]; intros prev; [done|].
  destruct (IH cur) as [Hgaps Hlength].
  cbn [emit_after]. rewrite gap_count_app, length_app, break_count_cons.
  rewrite Hgaps, Hlength.
  destruct (is_break prev cur); cbn [length]; unfold gap_count; simpl; lia.
Qed.

(** The segmenter adds exactly one gap marker per pair at which the level
    goes down or six months or more go by, and nothing else. *)
Theorem one_marker_per_break (history : list Point) :
  ∃ series,
    gapped_history history = Returns series
    ∧ gap_count series = break_count history
    ∧ length series = length history + break_count history.
Proof.
  exists (segmented history). split; [apply gapped_history_segmented|].
  destruct history as [|first rest]; [done|].
  destruct (emit_after_counts rest first) as [Hgaps Hlength].
  cbn [segmented length]. split; [|lia].
  unfold gap_count in *. simpl. exact Hgaps.
Qed.

Lemma adjacent_after (rest : list Point) :
  ∀ prev i p q,
    (Real prev :: emit_after prev rest) !! i = Some (Real p) →
    (Real prev :: emit_after prev rest) !! S i = Some (Real q) →
    is_break p q = false.
Proof.
  induction rest as [|cur rest IH]; intros prev i p q Hp Hq.
  { by destruct i. }
  cbn [emit_after] in Hp, Hq.
  destruct (is_break prev cur) eqn:Hbreak; cbn [app] in Hp, Hq.
  - destruct i as [|[|i]]; [done|done|].
    by apply (IH cur i p q).
  - destruct i as [|i]; [|by apply (IH cur i p q)].
    simpl in Hp, Hq. by simplify_eq.
Qed.

(** Two real points that follow each other in the gapped history, with no
    gap marker between them, never go down in level and are less than six
    months apart. *)
Theorem drawn_segments_never_go_down (history : list Point) :
  ∃ series,
    gapped_history history = Returns series
    ∧ ∀ i p q,
        series !! i = Some (Real p) →
        series !! S i = Some (Real q) →
        (y p ≤ y q)%Z
        ∧ (differenceInMonths (x q) (x p) >= of_Z GAP_MONTHS)%js = false.
Proof.
  exists (segmented history). split; [apply gapped_history_segmented|].
  intros i p q Hp Hq. destruct history as [|first rest]; [done|].
  pose proof (adjacent_after rest first i p q Hp Hq) as Hbreak.
  unfold is_break in Hbreak. apply orb_false_elim in Hbreak as [Hy Hmonths].
  split; [by apply Z.ltb_ge|done].
Qed.

Lemma gap_count_pace_after (low : Z) (rest : list (entry Point)) :
  ∀ prev, gap_count (pace_after low prev rest) = gap_count rest.
Proof.
  induction rest as [|cur rest IH]; intros prev; [done|].
  cbn [pace_after]. rewrite gap_count_app, IH.
  unfold pace_of_pair, gap_count.
  destruct cur as [c|]; [|done].
  destruct (y c <? low)%Z; [done|]. by destruct prev.
Qed.

(** The pace series has as many gap markers as the gapped history it is
    computed from, whatever the low-level cutoff. *)
Theorem pace_mirrors_the_gaps (low : Z) (history : list Point) :
  ∃ series pace,
    gapped_history history = Returns series
    ∧ speed_from low series = Returns pace
    ∧ gap_count pace = gap_count series.
Proof.
  exists (segmented history), (pace_series low (segmented history)).
  split; [apply gapped_history_segmented|].
  split; [apply speed_from_series|].
  destruct history as [|first rest]; [done|].
  cbn [segmented pace_series]. by rewrite gap_count_pace_after.
Qed.

Lemma pace_after_all_below (low : Z) (rest : list (entry Point)) :
  ∀ prev, all_below low rest →
    Forall (λ e, e = Gap) (pace_after low prev rest).
Proof.
  induction rest as [|cur rest IH]; intros prev Hbelow; [constructor|].
  apply Forall_cons in Hbelow as [Hcur Hrest]. cbn [pace_after].
  apply Forall_app. split; [|by apply IH].
  unfold pace_of_pair. destruct cur as [c|]; [|by repeat constructor].
  by rewrite (proj2 (Z.ltb_lt _ _) Hcur).
Qed.

(** While every point is below level index 3, the pace series holds no
    sample: only the gap markers of the history, if any. *)
Theorem no_sample_below_level_three (history : list (entry Point)) :
  all_below 3 history →
  ∃ pace,
    speed history = Returns pace ∧ Forall (λ e, e = Gap) pace.
Proof.
  intros Hbelow. exists (pace_series 3 history).
  split; [apply speed_from_series|].
  destruct history as [|first rest]; [constructor|].
  apply Forall_cons in Hbelow as [_ Hrest].
  by apply pace_after_all_below.
Qed.

(** Two real points less than a day apart, the later one higher and at
    level index 3 or above: the sample's rate is infinite. *)
Theorem same_day_rate_is_infinite (p q : Point) :
  differenceInDays (x q) (x p) = of_Z 0 →
  (y p < y q)%Z →
  (3 ≤ y q)%Z →
  speed [Real p; Real q]
  = Returns [Real {| sx := avgDate (x p) (x q); sy := PosInf |}].
Proof.
  intros Hdays Hup Hlevel. unfold speed. rewrite speed_from_series.
  cbn [pace_series pace_after pace_of_pair app].
  rewrite (proj2 (Z.ltb_ge _ _) Hlevel). unfold pace_sample.
  rewrite Hdays. do 3 f_equal.
  assert ((of_Z 0 / of_Z 30)%js = of_Z 0) as ->.
  { apply (bool_decide_unpack _). by vm_compute. }
  unfold JS.div, of_Z. change (sign (Q2Qc (inject_Z 0))) with Eq.
  unfold sign. change (Q2Qc 0) with (Q2Qc (inject_Z 0)).
  rewrite compare_of_Z.
  by rewrite (proj2 (Z.compare_gt_iff _ _)) by lia.
Qed.

End SegmenterMore.

(** Ten hours between level indices 3 and 4. *)
Lemma same_day_speed :
  ∃ s, speed (map Real same_day) = Returns [Real s] ∧ sy s = PosInf.
Proof.
  eexists. split.
  - apply (same_day_rate_is_infinite (H := utc) (point_at jan1 0 3)
             (point_at jan1 600 4)); [by vm_compute|simpl; lia|simpl; lia].
  - reflexivity.
Defined.

(** The first three levels of [first_of_month] give no sample. *)
Lemma first_of_month_no_sample :
  ∃ pace,
    speed (map Real first_of_month) = Returns pace
    ∧ Forall (λ e, e = Gap) pace.
Proof.
  apply (no_sample_below_level_three (H := utc)).
  repeat constructor; simpl; lia.
Defined.

(** ** Further properties of the builder and of the whole pipeline *)

Lemma element_last_Some {A} (l : list A) (a : A) :
  last l = Some a → element l (length l - 1) = Returns a.
Proof. intros Hlast. apply last_Some in Hlast as [front ->]. apply element_last. Qed.

Lemma last_cons_is_Some {A} (a : A) (l : list A) : ∃ b, last (a :: l) = Some b.
Proof.
  destruct (last (a :: l)) as [b|] eqn:Hlast; [by exists b|].
  by apply last_None in Hlast.
Qed.

Lemma maxDates_invalid (d : Date) : maxDates [d; Invalid] = Invalid.
Proof. unfold maxDates. simpl. by destruct (date_lt d Invalid). Qed.

Lemma date_ge_invalid (d : Date) : date_ge d Invalid = false.
Proof. unfold date_ge. simpl. by destruct (getTime d). Qed.

Lemma cutoff_filter_none (start : Date) (points : list Point) :
  Forall (λ p, date_ge (x p) start = false) points →
  cutoff_filter start points = [].
Proof.
  unfold cutoff_filter. induction 1 as [|p rest Hp _ IH]; [done|].
  simpl. by rewrite Hp.
Qed.

Lemma date_lt_valid (d : Date) (t : Z) :
  date_lt d (At t) = true → ∃ t0, d = At t0 ∧ (t0 < t)%Z.
Proof.
  destruct d as [|t0]; [done|]. rewrite date_lt_At. intros Hlt.
  exists t0. split; [done|]. by apply Z.ltb_lt.
Qed.

Section PipelineMore.
Context `{Differences}.

(** A first record without a valid unlock time makes the start date
    invalid, whatever the cutoff: every unlock point is dropped, and only
    the completion point, if any, is left. When the last level was not
    passed, [processData] throws. *)
Theorem missing_first_unlock_drops_every_point (first : ProgressRecord)
    (others : list ProgressRecord) (final : ProgressRecord)
    (startDateStr : option Date) :
  unlocked_at first = Invalid →
  last (first :: others) = Some final →
  built_history (first :: others) startDateStr = Returns (completion final)
  ∧ (passed_at final = None →
     processData (first :: others) startDateStr = Throws TypeError).
Proof.
  intros Hfirst Hlast.
  assert (built_history (first :: others) startDateStr
          = Returns (completion final)) as Hbuilt.
  { rewrite (built_history_nonempty _ _ _ _ Hlast).
    assert (effective_start startDateStr first = Invalid) as ->.
    { unfold effective_start. rewrite Hfirst.
      destruct startDateStr; [apply maxDates_invalid|done]. }
    rewrite cutoff_filter_none; [done|].
    apply Forall_forall. intros p _. apply date_ge_invalid. }
  split; [done|]. intros Hpassed. unfold processData. rewrite Hbuilt.
  unfold completion. by rewrite Hpassed.
Qed.

(** A start date later than every unlock, on a course that is not
    finished: the history is empty and [processData] throws. *)
Theorem start_after_last_unlock_throws (first : ProgressRecord)
    (others : list ProgressRecord) (final : ProgressRecord) (tc : Z) :
  Forall (λ r, date_lt (unlocked_at r) (At tc) = true) (first :: others) →
  last (first :: others) = Some final →
  passed_at final = None →
  built_history (first :: others) (Some (At tc)) = Returns []
  ∧ processData (first :: others) (Some (At tc)) = Throws TypeError.
Proof.
  intros Hbefore Hlast Hpassed.
  assert (built_history (first :: others) (Some (At tc)) = Returns [])
    as Hbuilt.
  { rewrite (built_history_nonempty _ _ _ _ Hlast).
    unfold completion. rewrite Hpassed, app_nil_r.
    pose proof (Forall_inv Hbefore) as Hfirst. simpl in Hfirst.
    apply date_lt_valid in Hfirst as (t0 & Ht0 & Hlt).
    unfold effective_start. rewrite Ht0, maxDates_pair.
    replace (Z.max tc t0) with tc by lia.
    rewrite cutoff_filter_none; [done|].
    unfold unlock_points. apply Forall_map.
    eapply Forall_impl; [exact Hbefore|].
    intros r Hr. simpl. by apply lt_not_ge. }
  split; [done|]. unfold processData. by rewrite Hbuilt.
Qed.

(** [processData] fails only on an empty history. Once the builder returns
    at least one point, the forecaster, the segmenter and the pace
    estimator all return: the charted history, gap markers removed, is the
    built history, and there are two forecast lines. *)
Theorem chart_whenever_history_has_a_point (levels : list ProgressRecord)
    (startDateStr : option Date) :
  match built_history levels startDateStr with
  | Throws e => processData levels startDateStr = Throws e
  | Returns [] => processData levels startDateStr = Throws TypeError
  | Returns (p :: rest) =>
      ∃ charted,
        processData levels startDateStr = Returns charted
        ∧ remove_gaps (chart_history charted) = p :: rest
        ∧ length (chart_forecasts charted) = 2
  end.
Proof.
  unfold processData.
  destruct (built_history levels startDateStr) as [[|p rest]|e]; try done.
  cbn [mbind outcome_bind].
  pose proof (forecasts_two_lines_from_last (p :: rest)) as Hlines.
  destruct (last_cons_is_Some p rest) as [final Hlast].
  rewrite Hlast in Hlines. destruct Hlines as (end1 & end2 & ->).
  cbn [mbind outcome_bind]. rewrite gapped_history_segmented.
  cbn [mbind outcome_bind]. unfold speed. rewrite speed_from_series.
  cbn [mbind outcome_bind mret outcome_ret].
  eexists. split; [reflexivity|]. split; [|done].
  simpl. by rewrite remove_gaps_emit_after.
Qed.

Lemma no_cutoff_built_history (first : ProgressRecord)
    (others : list ProgressRecord) (final : ProgressRecord) :
  last (first :: others) = Some final →
  NoCutoff.built_history (first :: others)
  = Returns (unlock_points (first :: others) ++ completion final).
Proof.
  intros Hlast. unfold NoCutoff.built_history.
  rewrite (element_final _ _ Hlast). cbn [mbind outcome_bind].
  unfold completion. destruct (passed_at final); by rewrite ?app_nil_r.
Qed.

(** With the start date left empty, the pipeline with cutoff charts what
    the variant without cutoff charts, provided no unlock is earlier than
    the first one (and all unlock times are valid); both throw on an empty
    record list. *)
Theorem empty_start_date_is_no_cutoff :
  processData [] None = NoCutoff.processData []
  ∧ ∀ first others,
      Forall (λ r, date_ge (unlocked_at r) (unlocked_at first) = true)
        (first :: others) →
      processData (first :: others) None
      = NoCutoff.processData (first :: others).
Proof.
  split; [done|]. intros first others Hordered.
  destruct (last_cons_is_Some first others) as [final Hlast].
  unfold processData, NoCutoff.processData.
  rewrite (built_history_nonempty _ _ _ _ Hlast).
  rewrite (no_cutoff_built_history _ _ _ Hlast).
  cbn [effective_start]. rewrite cutoff_filter_all; [done|].
  unfold unlock_points. apply Forall_map.
  eapply Forall_impl; [exact Hordered|]. by intros r Hr.
Qed.

End PipelineMore.

(** A first record without unlock time: nothing is left to chart. *)
Lemma unlock_missing_history :
  built_history unlock_missing None = Returns []
  ∧ processData unlock_missing None = Throws TypeError.
Proof.
  destruct (missing_first_unlock_drops_every_point (H := utc)
              {| level := 1; unlocked_at := Invalid; passed_at := None |}
              [record_at (jan1 + 31) 2 None]
              (record_at (jan1 + 31) 2 None) None eq_refl eq_refl)
    as [Hbuilt Hthrows].
  split; [exact Hbuilt|]. by apply Hthrows.
Defined.

(** Three levels unlocked by March 1st and a start date of April 11th. *)
Lemma start_in_april_throws :
  processData three_levels (Some (midnight (jan1 + 100))) = Throws TypeError.
Proof.
  apply (start_after_last_unlock_throws (H := utc)
           (record_at jan1 1 None)
           [record_at (jan1 + 31) 2 None; record_at (jan1 + 59) 3 None]
           (record_at (jan1 + 59) 3 None)
           ((jan1 + 100) * MILLISECONDS_IN_DAY)); [|reflexivity|reflexivity].
  repeat constructor; by vm_compute.
Defined.

(** Three levels unlocked in order: the two variants chart the same. *)
Lemma three_levels_same_chart :
  processData three_levels None = NoCutoff.processData three_levels.
Proof.
  destruct (empty_start_date_is_no_cutoff (H := utc)) as [_ Hsame].
  apply Hsame. repeat constructor; by vm_compute.
Defined.

(** ** The earliest variant *)

Lemma earliest_smooth_is_smooth (hours : number) (i : nat) (old : nullable) :
  Earliest.smooth hours i old = smooth hours i old.
Proof. unfold Earliest.smooth, smooth. by destruct (falsy old). Qed.

Section EarliestVariant.
Context `{Differences}.

Lemma earliest_round_pair (pre : list Point) (a b : Point)
    (rest : list Point) (avgs : list nullable) :
  Earliest.forecast_round (pre ++ a :: b :: rest) avgs (S (length pre))
  = Returns (earliest_round avgs (a, b)).
Proof.
  unfold Earliest.forecast_round. rewrite element_after. simpl.
  replace (length pre - 0) with (length pre) by lia.
  by rewrite element_middle.
Qed.

Lemma earliest_loop_pairs (rest : list Point) :
  ∀ (pre : list Point) (a : Point) (avgs : list nullable),
    for_loop (Earliest.forecast_round (pre ++ a :: rest)) (S (length pre))
      (length rest) avgs
    = Returns (fold_left earliest_round (pairs (a :: rest)) avgs).
Proof.
  induction rest as [|b rest IH]; intros pre a avgs; [done|].
  cbn [length for_loop]. rewrite earliest_round_pair.
  cbn [mbind outcome_bind].
  specialize (IH (pre ++ [a]) b (earliest_round avgs (a, b))).
  rewrite <- app_assoc, length_app, Nat.add_1_r in IH. exact IH.
Qed.

Lemma rounds_coincide (steps : list (Point * Point)) :
  ∀ avgs,
    Forall counted steps →
    fold_left earliest_round steps avgs = fold_left code_round steps avgs.
Proof.
  induction steps as [|[prev cur] steps IH]; intros avgs Hall; [done|].
  apply Forall_cons in Hall as [Hpair Hrest]. unfold counted in Hpair.
  simpl in Hpair. cbn [fold_left].
  assert (earliest_round avgs (prev, cur) = code_round avgs (prev, cur))
    as ->.
  { unfold earliest_round, code_round. rewrite Hpair. simpl.
    apply imap_ext. intros i old _. apply earliest_smooth_is_smooth. }
  by apply IH.
Qed.

(** On a history without a pause of three months the forecaster of the
    earliest variant, which counts every pair, returns what the current
    one returns; on an empty history both throw. *)
Theorem earliest_forecaster_agrees (history : list Point) :
  Forall counted (pairs history) →
  Earliest.computeForecasts history = computeForecasts history.
Proof.
  intros Hcounted.
  unfold Earliest.computeForecasts, computeForecasts, Earliest.avgHours.
  rewrite avgHours_pairs.
  assert (for_loop (Earliest.forecast_round history) 1 (length history - 1)
            [None; None]
          = Returns (fold_left code_round (pairs history) [None; None]))
    as ->; [|done].
  destruct history as [|a rest]; [done|].
  cbn [length]. replace (S (length rest) - 1) with (length rest) by lia.
  rewrite (earliest_loop_pairs rest [] a). by rewrite rounds_coincide.
Qed.





End EarliestVariant.

(** Two points thirty days apart: the earliest forecaster agrees. *)
Lemma thirty_days_earliest :
  Earliest.computeForecasts thirty_days = computeForecasts thirty_days.
Proof.
  apply (earliest_forecaster_agrees (H := utc)).
  repeat constructor.
Defined.

(** ** The axis of the chart *)

Lemma minDates_pair (a b : Z) : minDates [At a; At b] = At (Z.min a b).
Proof.
  unfold minDates. simpl. rewrite date_lt_At.
  destruct (Z.ltb_spec b a); simpl; f_equal; lia.
Qed.

Lemma minDates_invalid (d : Date) : minDates [d; Invalid] = Invalid.
Proof. unfold minDates. simpl. by destruct (date_lt Invalid d). Qed.

Lemma last_cons_default {A} (a : A) (l : list A) :
  last (a :: l) = Some (default a (last l)).
Proof.
  revert a. induction l as [|b l IH]; intros a; [done|].
  by rewrite last_cons_cons, IH.
Qed.

Section AxisOfTheChart.
Context `{Differences} `{Calendar}.

Lemma last_emit_after (rest : list Point) :
  ∀ prev,
    last (Real prev :: emit_after prev rest)
    = Some (Real (default prev (last rest))).
Proof.
  induction rest as [|cur rest IH]; intros prev; [done|].
  cbn [emit_after]. rewrite (last_cons_default cur rest). simpl.
  destruct (is_break prev cur); cbn [app];
    rewrite !last_cons_cons; apply IH.
Qed.

(** On what [processData] hands to [makeChart], the axis is computed from
    real points: it starts at the month of the first point of the built
    history and its end is measured from the last one. No [x] of a gap
    marker is read, and nothing is thrown. *)
Theorem axis_is_read_from_real_points (levels : list ProgressRecord)
    (startDateStr : option Date) :
  match built_history levels startDateStr with
  | Returns (p :: rest) =>
      ∃ charted,
        processData levels startDateStr = Returns charted
        ∧ chart_range (chart_history charted) (chart_forecasts charted)
          = Returns
              {| range_min := startOfMonth (x p);
                 range_max :=
                   endOfMonth
                     (axis_end (Some (x (default p (last rest))))
                        (chart_forecasts charted)) |}
  | _ => True
  end.
Proof.
  destruct (built_history levels startDateStr) as [[|p rest]|e] eqn:Hbuilt;
    try done.
  unfold processData. rewrite Hbuilt. cbn [mbind outcome_bind].
  pose proof (forecasts_two_lines_from_last (p :: rest)) as Hlines.
  destruct (last_cons_is_Some p rest) as [final Hlast].
  rewrite Hlast in Hlines. destruct Hlines as (end1 & end2 & ->).
  cbn [mbind outcome_bind]. rewrite gapped_history_segmented.
  cbn [mbind outcome_bind]. unfold speed. rewrite speed_from_series.
  cbn [mbind outcome_bind mret outcome_ret].
  eexists. split; [reflexivity|]. cbn [chart_history chart_forecasts].
  unfold chart_range. cbn [segmented].
  rewrite (element_last_Some _ _ (last_emit_after rest p)).
  done.
Qed.

(** The axis ends at the later of the two forecasts, but no later than
    [MAX_YEARS_FORECAST] years after the last point; when that cap is not a
    valid date, neither is the end of the axis. *)
Theorem axis_end_is_capped (last : option Date) (start1 start2 : Point)
    (t1 t2 : Z) :
  axis_end last
    [(start1, {| x := At t1; y := MAX_LEVEL |});
     (start2, {| x := At t2; y := MAX_LEVEL |})]
  = match addYears (toDate last) MAX_YEARS_FORECAST with
    | At cap => At (Z.min (Z.max t1 t2) cap)
    | Invalid => Invalid
    end.
Proof.
  unfold axis_end. cbn [map snd x]. rewrite maxDates_pair.
  destruct (addYears (toDate last) MAX_YEARS_FORECAST) as [|cap].
  - apply minDates_invalid.
  - apply minDates_pair.
Qed.

End AxisOfTheChart.

(** ** The stored API key *)


(** ** The direction of the forecasts *)





Section Direction.
Context `{Differences}.



End Direction.

